(** * Playlix calendar backend: availability and scheduling handlers

    A shallow embedding of [src/index.js]: the credential loader
    [loadTokens], the handler of [GET /api/availability] and the handler of
    [POST /api/schedule], together with the parts of the JavaScript runtime
    they call ([Date], the regular-expression test, [String.prototype.includes])
    and an interface for what lies outside the repository (the OAuth2 client's
    credential slot, the token file, the calendar provider). *)

From Stdlib Require Import ZArith List String Ascii Bool Lia DecimalString.
From Stdlib Require Import DecimalPos DecimalZ.
Import ListNotations.

Local Open Scope string_scope.
Local Open Scope Z_scope.

(** ** Strings *)

Module Str.

(** [c] is one of the characters [0] .. [9], which is what [\d] matches in a
    regular expression without the unicode flag. *)
Definition is_digit (c : ascii) : bool :=
  let n := Z.of_N (N_of_ascii c) in (48 <=? n) && (n <=? 57).

Definition digit_val (c : ascii) : Z := Z.of_N (N_of_ascii c) - 48.

Definition digit_char (d : Z) : ascii := ascii_of_N (Z.to_N (48 + d mod 10)).

(** [String.prototype.includes]: [needle] occurs in [s] as a substring. *)
Fixpoint includes (needle s : string) : bool :=
  String.prefix needle s ||
  match s with
  | EmptyString => false
  | String _ s' => includes needle s'
  end.

(** The last [n] decimal digits of [z], most significant first. *)
Fixpoint pad (n : nat) (z : Z) : string :=
  match n with
  | O => ""
  | S n' => pad n' (z / 10) ++ String (digit_char z) ""
  end.

(** Decimal rendering of a number, as a template literal does it. *)
Definition of_Z (z : Z) : string := NilZero.string_of_int (Z.to_int z).

Definition is_empty (s : string) : bool :=
  match s with EmptyString => true | _ => false end.

End Str.

(** ** Regular expressions of the shape the service uses

    A pattern anchored at both ends whose items are a run of exactly [n]
    digits or one literal character. *)

Module Regex.

Inductive item : Type :=
| Digits (n : nat)
| Lit (c : ascii).

Fixpoint eat_digits (n : nat) (s : string) : option string :=
  match n with
  | O => Some s
  | S n' =>
      match s with
      | String c s' => if Str.is_digit c then eat_digits n' s' else None
      | EmptyString => None
      end
  end.

(** [test items s]: the whole of [s] matches [^ items $]. *)
Fixpoint test (items : list item) (s : string) : bool :=
  match items with
  | [] => Str.is_empty s
  | Digits n :: rest =>
      match eat_digits n s with
      | Some s' => test rest s'
      | None => false
      end
  | Lit c :: rest =>
      match s with
      | String c' s' => Ascii.eqb c' c && test rest s'
      | EmptyString => false
      end
  end.

End Regex.

(** ** The ECMAScript [Date] object

    Time values are milliseconds since the epoch; an invalid date ([NaN]) is
    [None].  The day arithmetic is the proleptic Gregorian calendar. *)

Module JsDate.

Definition msPerDay : Z := 86400000.
Definition msPerHour : Z := 3600000.
Definition msPerMinute : Z := 60000.
Definition msPerSecond : Z := 1000.

Definition Day (t : Z) : Z := t / msPerDay.
Definition TimeWithinDay (t : Z) : Z := t mod msPerDay.

Definition MakeTime (h m s ms : Z) : Z :=
  h * msPerHour + m * msPerMinute + s * msPerSecond + ms.

(** Day number of the civil date [y]-[m]-[d] ([m] from 1; a [d] past the end
    of the month runs into the next one). *)
Definition MakeDay (y m d : Z) : Z :=
  let y' := if m <=? 2 then y - 1 else y in
  let era := y' / 400 in
  let yoe := y' - era * 400 in
  let mp := if m <=? 2 then m + 9 else m - 3 in
  let doy := (153 * mp + 2) / 5 + d - 1 in
  let doe := yoe * 365 + yoe / 4 - yoe / 100 + doy in
  era * 146097 + doe - 719468.

Definition MakeDate (day time : Z) : Z := day * msPerDay + time.

Definition TimeClip (t : Z) : option Z :=
  if Z.abs t <=? 8640000000000000 then Some t else None.

(** Civil date (year, month from 1, day of the month) of a day number. *)
Definition civil_of_day (z0 : Z) : Z * Z * Z :=
  let z := z0 + 719468 in
  let era := z / 146097 in
  let doe := z - era * 146097 in
  let yoe := (doe - doe / 1460 + doe / 36524 - doe / 146096) / 365 in
  let doy := doe - (365 * yoe + yoe / 4 - yoe / 100) in
  let mp := (5 * doy + 2) / 153 in
  let d := doy - (153 * mp + 2) / 5 + 1 in
  let m := if mp <? 10 then mp + 3 else mp - 9 in
  let y := yoe + era * 400 + (if m <=? 2 then 1 else 0) in
  (y, m, d).

(** The text [Date.prototype.toISOString] produces for a valid time value. *)
Definition iso_string (t : Z) : string :=
  let '(y, m, d) := civil_of_day (Day t) in
  let r := TimeWithinDay t in
  let year :=
    if (0 <=? y) && (y <=? 9999) then Str.pad 4 y
    else (if y <? 0 then "-" else "+") ++ Str.pad 6 (Z.abs y) in
  year ++ "-" ++ Str.pad 2 m ++ "-" ++ Str.pad 2 d ++ "T" ++
  Str.pad 2 (r / msPerHour) ++ ":" ++
  Str.pad 2 (r mod msPerHour / msPerMinute) ++ ":" ++
  Str.pad 2 (r mod msPerMinute / msPerSecond) ++ "." ++
  Str.pad 3 (r mod msPerSecond) ++ "Z".

(** *** The date-time string format

    [YYYY], [YYYY-MM] or [YYYY-MM-DD], optionally followed by
    [THH:mm], [THH:mm:ss] or [THH:mm:ss.sss] and then optionally by [Z] or
    a signed [HH:mm] offset. *)

Record iso_fields : Type := {
  f_year : Z; f_month : Z; f_day : Z;
  f_time : option (Z * Z * Z * Z);
  f_offset : option Z; (* minutes east of UTC; [None]: no designator *)
  f_offset_legal : bool (* the designator's hours and minutes are in range *)
}.

Fixpoint number (n : nat) (acc : Z) (s : string) : option (Z * string) :=
  match n with
  | O => Some (acc, s)
  | S n' =>
      match s with
      | String c s' =>
          if Str.is_digit c then number n' (10 * acc + Str.digit_val c) s'
          else None
      | EmptyString => None
      end
  end.

(** The designator that ends the string: the offset it names, and whether
    its hours (00 to 23) and minutes (00 to 59) are legal values. *)
Definition parse_offset (s : string) : option (option Z * bool) :=
  match s with
  | EmptyString => Some (None, true)
  | String c s' =>
      if Ascii.eqb c "Z" then
        if Str.is_empty s' then Some (Some 0, true) else None
      else if Ascii.eqb c "+" || Ascii.eqb c "-" then
        match number 2 0 s' with
        | Some (h, String c2 s2) =>
            if Ascii.eqb c2 ":" then
              match number 2 0 s2 with
              | Some (m, EmptyString) =>
                  let v := h * 60 + m in
                  Some (Some (if Ascii.eqb c "-" then - v else v),
                        (h <=? 23) && (m <=? 59))
              | _ => None
              end
            else None
        | _ => None
        end
      else None
  end.

Definition parse_fraction (h m sec : Z) (s : string)
  : option (Z * Z * Z * Z * string) :=
  match s with
  | String c s' =>
      if Ascii.eqb c "." then
        match number 3 0 s' with
        | Some (ms, s2) => Some (h, m, sec, ms, s2)
        | None => None
        end
      else Some (h, m, sec, 0, s)
  | EmptyString => Some (h, m, sec, 0, s)
  end.

Definition parse_seconds (h m : Z) (s : string)
  : option (Z * Z * Z * Z * string) :=
  match s with
  | String c s' =>
      if Ascii.eqb c ":" then
        match number 2 0 s' with
        | Some (sec, s2) => parse_fraction h m sec s2
        | None => None
        end
      else Some (h, m, 0, 0, s)
  | EmptyString => Some (h, m, 0, 0, s)
  end.

(** What follows the date: nothing, or [T] and a time. *)
Definition parse_time (s : string)
  : option (option (Z * Z * Z * Z) * option Z * bool) :=
  match s with
  | EmptyString => Some (None, None, true)
  | String c s' =>
      if Ascii.eqb c "T" then
        match number 2 0 s' with
        | Some (h, String c2 s2) =>
            if Ascii.eqb c2 ":" then
              match number 2 0 s2 with
              | Some (m, s3) =>
                  match parse_seconds h m s3 with
                  | Some (h', m', sec, ms, s4) =>
                      match parse_offset s4 with
                      | Some (off, ok) =>
                          Some (Some (h', m', sec, ms), off, ok)
                      | None => None
                      end
                  | None => None
                  end
              | None => None
              end
            else None
        | _ => None
        end
      else None
  end.

Definition finish (y m d : Z) (s : string) : option iso_fields :=
  match parse_time s with
  | Some (tm, off, ok) =>
      Some {| f_year := y; f_month := m; f_day := d;
              f_time := tm; f_offset := off; f_offset_legal := ok |}
  | None => None
  end.

Definition parse_day (y m : Z) (s : string) : option iso_fields :=
  match s with
  | String c s' =>
      if Ascii.eqb c "-" then
        match number 2 0 s' with
        | Some (d, s2) => finish y m d s2
        | None => None
        end
      else finish y m 1 s
  | EmptyString => finish y m 1 s
  end.

(** The syntax of the format: [None] when the string is not an instance. *)
Definition parse_iso (s : string) : option iso_fields :=
  match number 4 0 s with
  | Some (y, String c s') =>
      if Ascii.eqb c "-" then
        match number 2 0 s' with
        | Some (m, s2) => parse_day y m s2
        | None => None
        end
      else finish y 1 1 (String c s')
  | Some (y, EmptyString) => finish y 1 1 ""
  | None => None
  end.

(** The element values that are legal in the format. *)
Definition legal (f : iso_fields) : bool :=
  (1 <=? f_month f) && (f_month f <=? 12) &&
  (1 <=? f_day f) && (f_day f <=? 31) &&
  match f_time f with
  | None => true
  | Some (h, m, s, ms) =>
      (m <=? 59) && (s <=? 59) &&
      ((h <=? 23) || ((h =? 24) && (m =? 0) && (s =? 0) && (ms =? 0)))
  end &&
  f_offset_legal f.

(** The host: the local time zone adjustment [LocalTZA t isUTC] of the
    machine the service runs on, and what its engine makes of a string that
    is not in the format above. *)
Record Host : Type := {
  LocalTZA : Z -> bool -> Z;
  parse_fallback : string -> option Z
}.

Section WithHost.
Variable host : Host.

Definition LocalTime (t : Z) : Z := t + LocalTZA host t true.
Definition UTC (t : Z) : Z := t - LocalTZA host t false.

(** Time value of the fields: a date-only form is UTC, a date-time form
    without designator is local time, a designator fixes the offset. *)
Definition time_of_fields (f : iso_fields) : option Z :=
  if legal f then
    let day := MakeDay (f_year f) (f_month f) (f_day f) in
    match f_time f with
    | None => Some (MakeDate day 0)
    | Some (h, m, s, ms) =>
        let t := MakeDate day (MakeTime h m s ms) in
        match f_offset f with
        | Some o => Some (t - o * msPerMinute)
        | None => Some (UTC t)
        end
    end
  else None.

(** [Date.parse]. *)
Definition parse (s : string) : option Z :=
  match parse_iso s with
  | Some f => time_of_fields f
  | None => parse_fallback host s
  end.

(** [new Date(string)]. *)
Definition of_string (s : string) : option Z :=
  match parse s with
  | Some t => TimeClip t
  | None => None
  end.

(** [new Date(number)], the number possibly [NaN]. *)
Definition of_number (n : option Z) : option Z :=
  match n with
  | Some t => TimeClip t
  | None => None
  end.

(** [d.setHours(h, m, s, ms)]: the new time value of [d]. *)
Definition setHours (d : option Z) (h m s ms : Z) : option Z :=
  match d with
  | Some t =>
      let date := MakeDate (Day (LocalTime t)) (MakeTime h m s ms) in
      TimeClip (UTC date)
  | None => None
  end.

End WithHost.

(** [d.getTime() + k]. *)
Definition plus (d : option Z) (k : Z) : option Z :=
  match d with
  | Some t => Some (t + k)
  | None => None
  end.

End JsDate.

(** ** Values exchanged with the outside *)

#[local] Set Warnings "-register-all".

(** A parsed JSON document.  Numbers are kept as integers: the service never
    computes with them, it only tests such a value for truthiness. *)
Inductive json : Type :=
| JNull
| JBool (b : bool)
| JNum (n : Z)
| JStr (s : string)
| JArr (items : list json)
| JObj (fields : list (string * json)).

(** JavaScript truthiness, of a JSON value and of a string property that may
    be [undefined] ([None]). *)
Definition truthy (v : json) : bool :=
  match v with
  | JNull => false
  | JBool b => b
  | JNum n => negb (n =? 0)
  | JStr s => negb (Str.is_empty s)
  | JArr _ | JObj _ => true
  end.

Definition truthy_str (o : option string) : bool :=
  match o with
  | Some s => negb (Str.is_empty s)
  | None => false
  end.

Definition truthy_opt (o : option json) : bool :=
  match o with
  | Some v => truthy v
  | None => false
  end.

(** [a || b] on two string properties. *)
Definition or_else (a b : option string) : option string :=
  if truthy_str a then a else b.

(** An exception value: an [Error] with its [message] and, where the thrower
    set one, a [code] (a number for a provider status, a string for a system
    error). *)
Inductive ErrCode : Type :=
| CodeUndefined
| CodeNum (n : Z)
| CodeStr (s : string).

Record JsError : Type := { code : ErrCode; message : string }.

Definition RangeError_invalid_time : JsError :=
  {| code := CodeUndefined; message := "Invalid time value" |}.

(** [error.code === 401]. *)
Definition code_is_401 (e : JsError) : bool :=
  match code e with
  | CodeNum n => n =? 401
  | _ => false
  end.

Inductive GResult (A : Type) : Type :=
| GOk (a : A)
| GFail (e : JsError).
Arguments GOk {A} a.
Arguments GFail {A} e.

(** An event as the provider returns it. *)
Record EventTime : Type := { dateTime : option string; date : option string }.

Record ProviderEvent : Type := {
  ev_summary : option string;
  ev_start : EventTime;
  ev_end : EventTime
}.

(** Parameters of [calendar.events.list]. *)
Record ListParams : Type := {
  l_calendarId : string;
  l_timeMin : string;
  l_timeMax : string;
  l_timeZone : string;
  l_singleEvents : bool;
  l_orderBy : option string
}.

(** The event resource the scheduling handler builds. *)
Record EventDateTime : Type := { e_dateTime : string; e_timeZone : string }.
Record Attendee : Type := { a_email : string }.
Record ReminderOverride : Type := { r_method : string; r_minutes : Z }.
Record Reminders : Type := {
  useDefault : bool;
  overrides : list ReminderOverride
}.
Record CreateRequest : Type := {
  requestId : string;
  conferenceSolutionKey_type : string
}.
Record ConferenceData : Type := { createRequest : CreateRequest }.

Record BookingEvent : Type := {
  summary : string;
  description : string;
  start : EventDateTime;
  end_ : EventDateTime;
  attendees : list Attendee;
  reminders : Reminders;
  conferenceData : ConferenceData
}.

(** Parameters of [calendar.events.insert]. *)
Record InsertParams : Type := {
  i_calendarId : string;
  i_resource : BookingEvent;
  i_conferenceDataVersion : Z;
  i_sendUpdates : string
}.

(** What a request does to the outside, in the order it happens. *)
Inductive Effect : Type :=
| ReadTokenFile (content : option string)
| SetCredentials (tokens : json)
| EventsList (p : ListParams) (r : GResult (option (list ProviderEvent)))
| EventsInsert (p : InsertParams) (r : GResult (option string)).

Definition is_gateway_call (e : Effect) : bool :=
  match e with
  | EventsList _ _ | EventsInsert _ _ => true
  | _ => false
  end.

Definition is_insert (e : Effect) : bool :=
  match e with
  | EventsInsert _ _ => true
  | _ => false
  end.

(** The HTTP answer: [res.status(s).json(body)]. *)
Record BusySlot : Type := {
  slot_start : option string;
  slot_end : option string;
  slot_summary : string
}.

Inductive Body : Type :=
| Failure (msg : string)
| Slots (slots : list BusySlot)
| Scheduled (msg : string) (link : option string).

Record Response : Type := { status : Z; body : Body }.

(** The content of [oauth2Client.credentials] ([None] for [undefined]).  The
    slot belongs to the OAuth2 client library: the client creates it, and
    replaces it when it refreshes the access token during a call on the
    provider.  The handlers are stated for any content of the slot. *)
Definition Creds : Type := option json.

(** What the slot holds when the client has just been constructed and nothing
    was installed: the empty object. *)
Definition initial_credentials : Creds := Some (JObj []).

(** The surroundings of a request: the process environment, the file system,
    the JavaScript host, the clock and the calendar provider. *)
Record Env : Type := {
  GOOGLE_REFRESH_TOKEN : option string;
  token_file : option string;          (* [None]: [fs.readFile] rejects *)
  JSON_parse : string -> option json;  (* [None]: [SyntaxError] *)
  js_host : JsDate.Host;
  Date_now : Z;
  events_list : ListParams -> GResult (option (list ProviderEvent));
  events_insert : InsertParams -> GResult (option string);
  (* what the OAuth2 client leaves in its credential slot during a call on
     the provider: it replaces the slot when it mints a new access token *)
  credentials_after_call : Creds -> Creds
}.

(** ** Computations

    A computation reads and writes [oauth2Client.credentials] ([None] for
    [undefined]), records its effects and ends in a value or in a thrown
    exception. *)

Inductive Result (A : Type) : Type :=
| Ret (a : A)
| Throw (e : JsError).
Arguments Ret {A} a.
Arguments Throw {A} e.


Definition M (A : Type) : Type := Creds -> Result A * Creds * list Effect.

Definition ret {A} (a : A) : M A := fun c => (Ret a, c, []).

Definition throw {A} (e : JsError) : M A := fun c => (Throw e, c, []).

Definition bind {A B} (m : M A) (k : A -> M B) : M B :=
  fun c =>
    match m c with
    | (Ret a, c1, t1) =>
        match k a c1 with
        | (r, c2, t2) => (r, c2, (t1 ++ t2)%list)
        end
    | (Throw e, c1, t1) => (Throw e, c1, t1)
    end.

(** [try { m } catch (error) { h error }]. *)
Definition try_catch {A} (m : M A) (h : JsError -> M A) : M A :=
  fun c =>
    match m c with
    | (Ret a, c1, t1) => (Ret a, c1, t1)
    | (Throw e, c1, t1) =>
        match h e c1 with
        | (r, c2, t2) => (r, c2, (t1 ++ t2)%list)
        end
    end.

Definition get_credentials : M Creds := fun c => (Ret c, c, []).

Notation "x <- m ;; k" := (bind m (fun x => k))
  (at level 61, m at next level, right associativity).
Notation "m ;;; k" := (bind m (fun _ => k))
  (at level 61, right associativity).

(** [res.status(s).json({ success: false, message })] and the two successes. *)
Definition fail_with (s : Z) (msg : string) : Response :=
  {| status := s; body := Failure msg |}.

Definition ok_with (b : Body) : Response := {| status := 200; body := b |}.

Section Service.
Variable env : Env.

(** [oauth2Client.setCredentials(tokens)]. *)
Definition setCredentials (tokens : json) : M unit :=
  fun _ => (Ret tt, Some tokens, [SetCredentials tokens]).

(** [await fs.readFile(TOKEN_PATH)]. *)
Definition readFile : M string :=
  fun c =>
    match token_file env with
    | Some content => (Ret content, c, [ReadTokenFile (Some content)])
    | None =>
        (Throw {| code := CodeStr "ENOENT";
                  message := "ENOENT: no such file or directory" |},
         c, [ReadTokenFile None])
    end.

(** [JSON.parse(content)]. *)
Definition parseJSON (content : string) : M json :=
  match JSON_parse env content with
  | Some v => ret v
  | None =>
      throw {| code := CodeUndefined; message := "Unexpected token" |}
  end.

(** [d.toISOString()]. *)
Definition toISOString (d : option Z) : M string :=
  match d with
  | Some t => ret (JsDate.iso_string t)
  | None => throw RangeError_invalid_time
  end.

(** [await calendar.events.list(p)]: the [items] of the answer. *)
Definition calendar_events_list (p : ListParams)
  : M (option (list ProviderEvent)) :=
  fun c =>
    match events_list env p with
    | GOk items =>
        (Ret items, credentials_after_call env c, [EventsList p (GOk items)])
    | GFail e =>
        (Throw e, credentials_after_call env c, [EventsList p (GFail e)])
    end.

(** [await calendar.events.insert(p)]: the [htmlLink] of the answer. *)
Definition calendar_events_insert (p : InsertParams) : M (option string) :=
  fun c =>
    match events_insert env p with
    | GOk link =>
        (Ret link, credentials_after_call env c, [EventsInsert p (GOk link)])
    | GFail e =>
        (Throw e, credentials_after_call env c, [EventsInsert p (GFail e)])
    end.

(** *** [loadTokens] *)

(** The second source, the local file. *)
Definition loadTokens_file : M bool :=
  try_catch
    (content <- readFile ;;
     tokens <- parseJSON content ;;
     setCredentials tokens ;;;
     ret true)
    (fun _ => ret false).

Definition loadTokens : M bool :=
  match GOOGLE_REFRESH_TOKEN env with
  | Some tok =>
      if negb (Str.is_empty tok) then
        setCredentials (JObj [("refresh_token", JStr tok)]) ;;;
        ret true
      else loadTokens_file
  | None => loadTokens_file
  end.

Definition TIMEZONE : string := "America/Sao_Paulo".

Definition not_authenticated : Response :=
  fail_with 401 "Backend not authenticated. Please visit /auth".

(** *** [GET /api/availability] *)

Definition busySlot (event : ProviderEvent) : BusySlot :=
  {| slot_start := or_else (dateTime (ev_start event)) (date (ev_start event));
     slot_end := or_else (dateTime (ev_end event)) (date (ev_end event));
     slot_summary := "Ocupado" |}.

(** The part of the handler after the credential check. *)
Definition availability_query (date : string) : M Response :=
  let dayStart := JsDate.setHours (js_host env)
                    (JsDate.of_string (js_host env) date) 0 0 0 0 in
  timeMin <- toISOString dayStart ;;
  let dayEnd := JsDate.setHours (js_host env)
                  (JsDate.of_string (js_host env) date) 23 59 59 999 in
  timeMax <- toISOString dayEnd ;;
  items <- calendar_events_list
             {| l_calendarId := "primary";
                l_timeMin := timeMin;
                l_timeMax := timeMax;
                l_timeZone := TIMEZONE;
                l_singleEvents := true;
                l_orderBy := Some "startTime" |} ;;
  let events := match items with Some l => l | None => [] end in
  ret (ok_with (Slots (map busySlot events))).

Definition availability (date : option string) : M Response :=
  match date with
  | Some d =>
      if Str.is_empty d then
        ret (fail_with 400 "Missing required query parameter: date")
      else
        try_catch
          (c <- get_credentials ;;
           if negb (truthy_opt c) then
             loadTokens ;;;
             c' <- get_credentials ;;
             if negb (truthy_opt c') then ret not_authenticated
             else availability_query d
           else availability_query d)
          (fun error =>
             ret (fail_with 500
                    ("Error checking availability: " ++ message error)))
  | None => ret (fail_with 400 "Missing required query parameter: date")
  end.

(** *** [POST /api/schedule] *)

Record ScheduleBody : Type := {
  b_name : option string;
  b_email : option string;
  b_date : option string
}.

(** [/^\d{4}-\d{2}-\d{2}T\d{2}:\d{2}:\d{2}$/] *)
Definition naive_pattern : list Regex.item :=
  [Regex.Digits 4; Regex.Lit "-"; Regex.Digits 2; Regex.Lit "-";
   Regex.Digits 2; Regex.Lit "T"; Regex.Digits 2; Regex.Lit ":";
   Regex.Digits 2; Regex.Lit ":"; Regex.Digits 2].

(** The date the handler goes on with. *)
Definition normalizeDate (date : string) : string :=
  if Regex.test naive_pattern date then date ++ "-03:00" else date.

Definition bookingEvent (name email startISO endISO : string)
  : BookingEvent :=
  {| summary := "🚀 Demo Playlix: " ++ name;
     description :=
       "Interesse em demonstração da plataforma." ++
       String "010" (String "010" "Cliente: ") ++ name ++
       String "010" "Email: " ++ email ++
       String "010" "Agendado via IA Zek.";
     start := {| e_dateTime := startISO;
                 e_timeZone := "America/Sao_Paulo" |};
     end_ := {| e_dateTime := endISO;
                e_timeZone := "America/Sao_Paulo" |};
     attendees := [ {| a_email := email |} ];
     reminders :=
       {| useDefault := false;
          overrides := [ {| r_method := "email"; r_minutes := 24 * 60 |};
                         {| r_method := "popup"; r_minutes := 10 |} ] |};
     conferenceData :=
       {| createRequest :=
            {| requestId := "meet-" ++ Str.of_Z (Date_now env);
               conferenceSolutionKey_type := "hangoutsMeet" |} |} |}.

(** The part of the handler after the credential check. *)
Definition schedule_booking (name email date : string) : M Response :=
  let startDateTime := JsDate.of_string (js_host env) date in
  let endDateTime :=
    JsDate.of_number (JsDate.plus startDateTime (60 * 60 * 1000)) in
  timeMin <- toISOString startDateTime ;;
  timeMax <- toISOString endDateTime ;;
  items <- calendar_events_list
             {| l_calendarId := "primary";
                l_timeMin := timeMin;
                l_timeMax := timeMax;
                l_timeZone := "America/Sao_Paulo";
                l_singleEvents := true;
                l_orderBy := None |} ;;
  match items with
  | Some (_ :: _) =>
      ret (fail_with 409
             "Horário indisponível! Alguém acabou de agendar.")
  | _ =>
      startISO <- toISOString startDateTime ;;
      endISO <- toISOString endDateTime ;;
      link <- calendar_events_insert
                {| i_calendarId := "primary";
                   i_resource := bookingEvent name email startISO endISO;
                   i_conferenceDataVersion := 1;
                   i_sendUpdates := "all" |} ;;
      ret (ok_with (Scheduled "Evento agendado com sucesso!" link))
  end.

(** The answer of the [catch] block. *)
Definition schedule_error_response (error : JsError) : Response :=
  if code_is_401 error || Str.includes "invalid_grant" (message error) then
    fail_with 401
      "Authentication expired. Admin needs to visit /auth again."
  else
    fail_with 500 ("Error contacting Google Calendar: " ++ message error).

Definition schedule_catch (error : JsError) : M Response :=
  ret (schedule_error_response error).

Definition schedule (req : ScheduleBody) : M Response :=
  if negb (truthy_str (b_name req)) || negb (truthy_str (b_email req))
     || negb (truthy_str (b_date req)) then
    ret (fail_with 400 "Missing required fields: name, email, date")
  else
    match b_name req, b_email req, b_date req with
    | Some name, Some email, Some date0 =>
        let date := normalizeDate date0 in
        try_catch
          (c <- get_credentials ;;
           if negb (truthy_opt c) then
             loadTokens ;;;
             c' <- get_credentials ;;
             if negb (truthy_opt c') then ret not_authenticated
             else schedule_booking name email date
           else schedule_booking name email date)
          schedule_catch
    | _, _, _ =>
        ret (fail_with 400 "Missing required fields: name, email, date")
    end.

End Service.

(** ** Reading the outcome of a run *)

Definition result_of {A} (x : Result A * Creds * list Effect) : Result A :=
  fst (fst x).
Definition creds_of {A} (x : Result A * Creds * list Effect) : Creds :=
  snd (fst x).
Definition trace_of {A} (x : Result A * Creds * list Effect) : list Effect :=
  snd x.

(** The token the local file holds, if it can be read and parsed. *)
Definition persisted_token (env : Env) : option json :=
  match token_file env with
  | Some content => JSON_parse env content
  | None => None
  end.

(** The error of a gateway call that failed during the run. *)
Definition gateway_failed (tr : list Effect) (e : JsError) : Prop :=
  (exists p, In (EventsList p (GFail e)) tr) \/
  (exists p, In (EventsInsert p (GFail e)) tr).

(** The condition the specification names an invalid or expired grant. *)
Definition indicates_invalid_grant (e : JsError) : Prop :=
  code e = CodeNum 401 \/
  exists before after, message e = before ++ "invalid_grant" ++ after.

(** A date-time form of the string format that carries no designator. *)
Definition bare_local_date_time (s : string) : bool :=
  match JsDate.parse_iso s with
  | Some f =>
      match JsDate.f_time f, JsDate.f_offset f with
      | Some _, None => true
      | _, _ => false
      end
  | None => false
  end.

(** Hosts and surroundings used in the examples. *)
Definition utc_host : JsDate.Host :=
  {| JsDate.LocalTZA := fun _ _ => 0;
     JsDate.parse_fallback := fun _ => None |}.

Definition sao_paulo_host : JsDate.Host :=
  {| JsDate.LocalTZA := fun _ _ => - (3 * JsDate.msPerHour);
     JsDate.parse_fallback := fun _ => None |}.

Definition meeting : ProviderEvent :=
  {| ev_summary := Some "Board meeting";
     ev_start := {| dateTime := Some "2026-01-10T14:00:00-03:00";
                    date := None |};
     ev_end := {| dateTime := Some "2026-01-10T15:00:00-03:00";
                  date := None |} |}.

(** No token anywhere; the provider has nothing booked and accepts inserts. *)
Definition fresh_env (h : JsDate.Host) : Env :=
  {| GOOGLE_REFRESH_TOKEN := None;
     token_file := None;
     JSON_parse := fun _ => None;
     js_host := h;
     Date_now := 1768000000000;
     events_list := fun _ => GOk (Some []);
     events_insert := fun _ => GOk (Some "https://calendar.example/event");
     credentials_after_call := fun c => c |}.

(** A refresh token in the environment; the provider already has [meeting]. *)
Definition busy_env (h : JsDate.Host) : Env :=
  {| GOOGLE_REFRESH_TOKEN := Some "1//refresh";
     token_file := None;
     JSON_parse := fun _ => None;
     js_host := h;
     Date_now := 1768000000000;
     events_list := fun _ => GOk (Some [meeting]);
     events_insert := fun _ => GOk (Some "https://calendar.example/event");
     credentials_after_call := fun c => c |}.

(** The provider rejects every call with the given error. *)
Definition failing_env (e : JsError) : Env :=
  {| GOOGLE_REFRESH_TOKEN := Some "1//refresh";
     token_file := None;
     JSON_parse := fun _ => None;
     js_host := utc_host;
     Date_now := 1768000000000;
     events_list := fun _ => GFail e;
     events_insert := fun _ => GFail e;
     credentials_after_call := fun c => c |}.

(** A token file on disk holding one object. *)
Definition file_env : Env :=
  {| GOOGLE_REFRESH_TOKEN := None;
     token_file := Some "{}";
     JSON_parse := fun s => if String.eqb s "{}" then Some (JObj []) else None;
     js_host := utc_host;
     Date_now := 1768000000000;
     events_list := fun _ => GOk (Some []);
     events_insert := fun _ => GOk (Some "https://calendar.example/event");
     credentials_after_call := fun c => c |}.

Definition ana : ScheduleBody :=
  {| b_name := Some "Ana"; b_email := Some "ana@x.com";
     b_date := Some "2026-01-10T14:00:00" |}.

(** The body behind the credential check ends in a response or an exception
    and its effects are at most one [events.list] followed by at most one
    [events.insert]. *)
Inductive booking_run (env : Env) (name email date : string)
  : Result Response * list Effect -> Prop :=
| BookInvalidStart :
    JsDate.of_string (js_host env) date = None ->
    booking_run env name email date (Throw RangeError_invalid_time, [])
| BookInvalidEnd t :
    JsDate.of_string (js_host env) date = Some t ->
    JsDate.TimeClip (t + 3600000) = None ->
    booking_run env name email date (Throw RangeError_invalid_time, [])
| BookListFails t p e :
    JsDate.of_string (js_host env) date = Some t ->
    p = {| l_calendarId := "primary";
           l_timeMin := JsDate.iso_string t;
           l_timeMax := JsDate.iso_string (t + 3600000);
           l_timeZone := "America/Sao_Paulo";
           l_singleEvents := true;
           l_orderBy := None |} ->
    events_list env p = GFail e ->
    booking_run env name email date (Throw e, [EventsList p (GFail e)])
| BookConflict t p ev evs :
    JsDate.of_string (js_host env) date = Some t ->
    p = {| l_calendarId := "primary";
           l_timeMin := JsDate.iso_string t;
           l_timeMax := JsDate.iso_string (t + 3600000);
           l_timeZone := "America/Sao_Paulo";
           l_singleEvents := true;
           l_orderBy := None |} ->
    events_list env p = GOk (Some (ev :: evs)) ->
    booking_run env name email date
      (Ret (fail_with 409 "Horário indisponível! Alguém acabou de agendar."),
       [EventsList p (GOk (Some (ev :: evs)))])
| BookInsert t p items ip r :
    JsDate.of_string (js_host env) date = Some t ->
    p = {| l_calendarId := "primary";
           l_timeMin := JsDate.iso_string t;
           l_timeMax := JsDate.iso_string (t + 3600000);
           l_timeZone := "America/Sao_Paulo";
           l_singleEvents := true;
           l_orderBy := None |} ->
    events_list env p = GOk items ->
    (items = None \/ items = Some []) ->
    ip = {| i_calendarId := "primary";
            i_resource :=
              bookingEvent env name email (JsDate.iso_string t)
                (JsDate.iso_string (t + 3600000));
            i_conferenceDataVersion := 1;
            i_sendUpdates := "all" |} ->
    events_insert env ip = r ->
    booking_run env name email date
      (match r with
       | GOk link =>
           Ret (ok_with (Scheduled "Evento agendado com sucesso!" link))
       | GFail e => Throw e
       end,
       [EventsList p (GOk items); EventsInsert ip r]).


(** ** The authorisation callback and the token file

    [saveTokens] and the handler of [GET /auth/callback].  The token exchange,
    the write to the file system and the two uses of [JSON.stringify] are
    calls on the surroundings. *)

(** The token set the OAuth2 client hands out; a property that is not there is
    [None]. *)
Record Credentials : Type := {
  access_token : option string;
  refresh_token : option string;
  scope : option string;
  token_type : option string;
  id_token : option string;
  expiry_date : option Z
}.

Definition json_field (k : string) (v : option json)
  : list (string * json) :=
  match v with
  | Some x => [(k, x)]
  | None => []
  end.

(** The token set as a JSON object, properties that are there only. *)
Definition json_of_credentials (t : Credentials) : json :=
  JObj (json_field "access_token" (option_map JStr (access_token t)) ++
        json_field "refresh_token" (option_map JStr (refresh_token t)) ++
        json_field "scope" (option_map JStr (scope t)) ++
        json_field "token_type" (option_map JStr (token_type t)) ++
        json_field "id_token" (option_map JStr (id_token t)) ++
        json_field "expiry_date" (option_map JNum (expiry_date t)))%list.

Record AuthEnv : Type := {
  getToken : option string -> GResult Credentials;
  writeFile : string -> option JsError;   (* [None]: the write succeeded *)
  JSON_stringify : json -> string;
  stringify_error : JsError -> string
}.

Inductive AuthEffect : Type :=
| Core (e : Effect)
| GetToken (code : option string) (r : GResult Credentials)
| WriteTokenFile (content : string) (r : option JsError).

(** [res.status(s).send(html)]. *)
Record HtmlResponse : Type := { h_status : Z; h_body : string }.

Definition MA (A : Type) : Type :=
  Creds -> Result A * Creds * list AuthEffect.

Definition retA {A} (a : A) : MA A := fun c => (Ret a, c, []).

Definition bindA {A B} (m : MA A) (k : A -> MA B) : MA B :=
  fun c =>
    match m c with
    | (Ret a, c1, t1) =>
        match k a c1 with
        | (r, c2, t2) => (r, c2, (t1 ++ t2)%list)
        end
    | (Throw e, c1, t1) => (Throw e, c1, t1)
    end.

Definition try_catchA {A} (m : MA A) (h : JsError -> MA A) : MA A :=
  fun c =>
    match m c with
    | (Ret a, c1, t1) => (Ret a, c1, t1)
    | (Throw e, c1, t1) =>
        match h e c1 with
        | (r, c2, t2) => (r, c2, (t1 ++ t2)%list)
        end
    end.

(** A computation of the service run inside the callback. *)
Definition liftA {A} (m : M A) : MA A :=
  fun c =>
    match m c with
    | (r, c1, t1) => (r, c1, map Core t1)
    end.

Definition nl : string := String "010" "".

Section Auth.
Variable aenv : AuthEnv.

(** [await oauth2Client.getToken(code)]: the [tokens] of the answer. *)
Definition getTokenA (code : option string) : MA Credentials :=
  fun c =>
    match getToken aenv code with
    | GOk tokens => (Ret tokens, c, [GetToken code (GOk tokens)])
    | GFail e => (Throw e, c, [GetToken code (GFail e)])
    end.

(** [await fs.writeFile(TOKEN_PATH, content)]. *)
Definition writeFileA (content : string) : MA unit :=
  fun c =>
    match writeFile aenv content with
    | None => (Ret tt, c, [WriteTokenFile content None])
    | Some e => (Throw e, c, [WriteTokenFile content (Some e)])
    end.

(** *** [saveTokens] *)
Definition saveTokens (tokens : Credentials) : MA unit :=
  try_catchA
    (bindA (writeFileA (JSON_stringify aenv (json_of_credentials tokens)))
       (fun _ => retA tt))
    (fun _ => retA tt).

Definition refreshTokenMsg (tokens : Credentials) : string :=
  match refresh_token tokens with
  | Some tok =>
      if negb (Str.is_empty tok) then
        "<p><strong>Refresh Token (Add to Vercel Env Vars):</strong><br><code>"
        ++ tok ++ "</code></p>"
      else "<p>No refresh token returned. (Did you already authorize?)</p>"
  | None => "<p>No refresh token returned. (Did you already authorize?)</p>"
  end.

Definition success_page (tokens : Credentials) : string :=
  nl ++ "            <h1>Authentication successful!</h1>" ++
  nl ++ "            <p>You can close this window. Backend is ready to schedule events.</p>" ++
  nl ++ "            " ++ refreshTokenMsg tokens ++
  nl ++ "        ".

Definition failure_page (error : JsError) : string :=
  nl ++ "            <h1>Authentication failed</h1>" ++
  nl ++ "            <p>Error details:</p>" ++
  nl ++ "            <pre>" ++ stringify_error aenv error ++ "</pre>" ++
  nl ++ "        ".

(** *** [GET /auth/callback] *)
Definition auth_callback (code : option string) : MA HtmlResponse :=
  try_catchA
    (bindA (getTokenA code) (fun tokens =>
     bindA (liftA (setCredentials (json_of_credentials tokens))) (fun _ =>
     bindA (saveTokens tokens) (fun _ =>
     retA {| h_status := 200; h_body := success_page tokens |}))))
    (fun error =>
       retA {| h_status := 500; h_body := failure_page error |}).

End Auth.

(** The surroundings after [content] has been written to the token file. *)
Definition with_token_file (env : Env) (content : string) : Env :=
  {| GOOGLE_REFRESH_TOKEN := GOOGLE_REFRESH_TOKEN env;
     token_file := Some content;
     JSON_parse := JSON_parse env;
     js_host := js_host env;
     Date_now := Date_now env;
     events_list := events_list env;
     events_insert := events_insert env;
     credentials_after_call := credentials_after_call env |}.

(** The calls on the calendar provider among the effects of a run. *)
Definition gateway_calls (tr : list Effect) : list Effect :=
  filter is_gateway_call tr.

(** A host whose local time is a fixed offset from UTC. *)
Definition fixed_offset (h : JsDate.Host) (off : Z) : Prop :=
  forall t b, JsDate.LocalTZA h t b = off.

(** Surroundings of the callback used in the examples: the exchange yields a
    refresh token; the file system is writable or read-only. *)
Definition granted : Credentials :=
  {| access_token := Some "ya29.a0";
     refresh_token := Some "1//refresh";
     scope := None; token_type := Some "Bearer"; id_token := None;
     expiry_date := Some 1768003600000 |}.

Definition local_auth_env : AuthEnv :=
  {| getToken := fun _ => GOk granted;
     writeFile := fun _ => None;
     JSON_stringify := fun _ => "{}";
     stringify_error := fun e => message e |}.

Definition readonly_auth_env : AuthEnv :=
  {| getToken := fun _ => GOk granted;
     writeFile := fun _ =>
       Some {| code := CodeStr "EROFS";
               message := "EROFS: read-only file system" |};
     JSON_stringify := fun _ => "{}";
     stringify_error := fun e => message e |}.

Definition denied_auth_env : AuthEnv :=
  {| getToken := fun _ =>
       GFail {| code := CodeNum 400; message := "invalid_grant" |};
     writeFile := fun _ => None;
     JSON_stringify := fun _ => "{}";
     stringify_error := fun e => message e |}.

(** A token file that holds the JSON text [null]. *)
Definition null_file_env : Env :=
  {| GOOGLE_REFRESH_TOKEN := None;
     token_file := Some "null";
     JSON_parse := fun s => if String.eqb s "null" then Some JNull else None;
     js_host := utc_host;
     Date_now := 1768000000000;
     events_list := fun _ => GOk (Some []);
     events_insert := fun _ => GOk (Some "https://calendar.example/event");
     credentials_after_call := fun c => c |}.

(** The same surroundings on a server in another time zone. *)
Definition with_host (env : Env) (h : JsDate.Host) : Env :=
  {| GOOGLE_REFRESH_TOKEN := GOOGLE_REFRESH_TOKEN env;
     token_file := token_file env;
     JSON_parse := JSON_parse env;
     js_host := h;
     Date_now := Date_now env;
     events_list := events_list env;
     events_insert := events_insert env;
     credentials_after_call := credentials_after_call env |}.

(** The booking time names its own zone: the handler appends the offset, or
    the parser reads a designator. *)
Definition zone_fixed (d : string) : Prop :=
  Regex.test naive_pattern d = true \/
  exists f o, JsDate.parse_iso d = Some f /\ JsDate.f_offset f = Some o.

(** A token file whose text is read back as the token set [granted]. *)
Definition granted_file_env : Env :=
  {| GOOGLE_REFRESH_TOKEN := None;
     token_file := None;
     JSON_parse := fun s =>
       if String.eqb s "{}" then Some (json_of_credentials granted) else None;
     js_host := utc_host;
     Date_now := 1768000000000;
     events_list := fun _ => GOk (Some []);
     events_insert := fun _ => GOk (Some "https://calendar.example/event");
     credentials_after_call := fun c => c |}.

(** The access token the client mints from a refresh token, as the slot
    holds it after the call. *)
Definition minted (c : Creds) : Creds :=
  match c with
  | Some (JObj [("refresh_token", r)]) =>
      Some (JObj [("access_token", JStr "ya29.minted"); ("refresh_token", r)])
  | _ => c
  end.

(** A process that has just started with no token anywhere: the provider
    cannot be reached with credentials, and the client rejects each call. *)
Definition no_access : JsError :=
  {| code := CodeUndefined;
     message :=
       "No access, refresh token, API key or refresh handler callback is set."
  |}.

Definition tokenless_env : Env :=
  {| GOOGLE_REFRESH_TOKEN := None;
     token_file := None;
     JSON_parse := fun _ => None;
     js_host := utc_host;
     Date_now := 1768000000000;
     events_list := fun _ => GFail no_access;
     events_insert := fun _ => GFail no_access;
     credentials_after_call := fun c => c |}.

(** An all-day event: the provider gives its [date] and no [dateTime]. *)
Definition holiday : ProviderEvent :=
  {| ev_summary := Some "Holiday";
     ev_start := {| dateTime := None; date := Some "2026-01-10" |};
     ev_end := {| dateTime := None; date := Some "2026-01-11" |} |}.

(** A refresh token in the environment; the provider has a timed and an
    all-day event, and the client mints an access token at each call. *)
Definition mixed_env : Env :=
  {| GOOGLE_REFRESH_TOKEN := Some "1//refresh";
     token_file := None;
     JSON_parse := fun _ => None;
     js_host := utc_host;
     Date_now := 1768000000000;
     events_list := fun _ => GOk (Some [meeting; holiday]);
     events_insert := fun _ => GOk (Some "https://calendar.example/event");
     credentials_after_call := minted |}.

(** The error of a revoked refresh token, as the token endpoint reports it. *)
Definition revoked : JsError :=
  {| code := CodeNum 400;
     message := "invalid_grant: Token has been expired or revoked." |}.

(** What the availability query does behind the credential check: it throws
    on a date it cannot read before any call, or calls [events.list] once
    with the window of the date. *)
Definition query_run (env : Env) (d : string) (r : Result Response)
    (tr : list Effect) : Prop :=
  (r = Throw RangeError_invalid_time /\ tr = []) \/
  (exists t0 t1 p,
      JsDate.setHours (js_host env)
        (JsDate.of_string (js_host env) d) 0 0 0 0 = Some t0 /\
      JsDate.setHours (js_host env)
        (JsDate.of_string (js_host env) d) 23 59 59 999 = Some t1 /\
      p = {| l_calendarId := "primary";
             l_timeMin := JsDate.iso_string t0;
             l_timeMax := JsDate.iso_string t1;
             l_timeZone := "America/Sao_Paulo";
             l_singleEvents := true;
             l_orderBy := Some "startTime" |} /\
      tr = [EventsList p (events_list env p)] /\
      r = match events_list env p with
          | GOk items =>
              Ret (ok_with
                     (Slots (map busySlot
                               (match items with
                                | Some l => l
                                | None => []
                                end))))
          | GFail e => Throw e
          end).
(** ** Proof tools *)

(** Unfold the computation down to the calls on the surroundings. *)
Ltac unfold_run :=
  cbv beta iota zeta delta
    [schedule schedule_booking schedule_catch availability availability_query
     loadTokens loadTokens_file bind ret throw try_catch get_credentials
     setCredentials readFile parseJSON toISOString calendar_events_list
     calendar_events_insert app not_authenticated result_of creds_of
     trace_of fst snd].

(** A run is the triple of its three readings. *)
Lemma run_eta {A} (x : Result A * Creds * list Effect) :
  x = (result_of x, creds_of x, trace_of x).
Proof. destruct x as [[r c] tr]. reflexivity. Qed.

(** ** The calendar arithmetic on known dates *)

Example iso_string_epoch : JsDate.iso_string 0 = "1970-01-01T00:00:00.000Z".
Proof. reflexivity. Qed.

Example iso_string_leap_day :
  JsDate.iso_string 951782400000 = "2000-02-29T00:00:00.000Z".
Proof. vm_compute. reflexivity. Qed.

Example iso_string_before_epoch :
  JsDate.iso_string (-1) = "1969-12-31T23:59:59.999Z".
Proof. vm_compute. reflexivity. Qed.

Example parse_date_only_is_utc :
  JsDate.parse sao_paulo_host "2026-01-10" = Some 1768003200000.
Proof. vm_compute. reflexivity. Qed.

Example parse_date_time_is_local :
  JsDate.parse sao_paulo_host "2026-01-10T14:00" = Some 1768064400000.
Proof. vm_compute. reflexivity. Qed.

Example parse_with_offset :
  JsDate.parse utc_host "2026-01-10T14:00:00-03:00" = Some 1768064400000 /\
  JsDate.iso_string 1768064400000 = "2026-01-10T17:00:00.000Z".
Proof. split; vm_compute; reflexivity. Qed.

Example parse_offset_out_of_range :
  JsDate.parse utc_host "2026-01-10T14:00:00+00:60" = None /\
  JsDate.parse utc_host "2026-01-10T14:00:00+24:00" = None /\
  JsDate.parse utc_host "2026-01-10T14:00:00+23:59" = Some 1767967260000.
Proof. repeat split; vm_compute; reflexivity. Qed.

Example credentials_after_a_call :
  creds_of (availability mixed_env (Some "2026-01-10") None) =
    Some (JObj [("access_token", JStr "ya29.minted");
                ("refresh_token", JStr "1//refresh")]) /\
  creds_of (schedule (fresh_env utc_host) ana initial_credentials) =
    initial_credentials.
Proof. split; vm_compute; reflexivity. Qed.

Example includes_invalid_grant :
  Str.includes "invalid_grant" "Error: invalid_grant (token revoked)" = true /\
  Str.includes "invalid_grant" "Not Found" = false.
Proof. split; reflexivity. Qed.

(** ** The credential loader *)

(** The refresh token of the environment comes first and is installed
    without a look at the token file. *)
Lemma loadTokens_from_env (env : Env) (c : Creds) (tok : string) :
  GOOGLE_REFRESH_TOKEN env = Some tok -> tok <> "" ->
  loadTokens env c =
    (Ret true, Some (JObj [("refresh_token", JStr tok)]),
     [SetCredentials (JObj [("refresh_token", JStr tok)])]).
Proof.
  intros Htok Hne. unfold_run. rewrite Htok.
  destruct tok; [congruence | reflexivity].
Qed.

Lemma loadTokens_from_file (env : Env) (c : Creds) (content : string)
    (tokens : json) :
  truthy_str (GOOGLE_REFRESH_TOKEN env) = false ->
  token_file env = Some content -> JSON_parse env content = Some tokens ->
  loadTokens env c =
    (Ret true, Some tokens,
     [ReadTokenFile (Some content); SetCredentials tokens]).
Proof.
  intros Henv Hfile Hparse. unfold_run.
  destruct (GOOGLE_REFRESH_TOKEN env) as [[|a s]|]; simpl in Henv;
    try discriminate; simpl; rewrite Hfile, Hparse; reflexivity.
Qed.

Lemma loadTokens_nothing_found (env : Env) (c : Creds) :
  truthy_str (GOOGLE_REFRESH_TOKEN env) = false ->
  persisted_token env = None ->
  loadTokens env c = (Ret false, c, [ReadTokenFile (token_file env)]).
Proof.
  intros Henv Hnone. unfold persisted_token in Hnone. unfold_run.
  destruct (GOOGLE_REFRESH_TOKEN env) as [[|a s]|]; simpl in Henv;
    try discriminate; simpl;
    destruct (token_file env); try reflexivity; rewrite Hnone; reflexivity.
Qed.

(** C7.  [loadTokens] installs the refresh token of the environment and
    returns [true] whenever that secret is there (a non-empty string), without
    reading the token file; otherwise it installs what the token file parses
    to and returns [true]; when the file cannot be read or parsed it returns
    [false] and leaves the credentials as they were; and in every case it
    returns rather than throws. *)
Theorem loadTokens_resolution (env : Env) (c : Creds) :
  (forall tok,
      GOOGLE_REFRESH_TOKEN env = Some tok -> tok <> "" ->
      loadTokens env c =
        (Ret true, Some (JObj [("refresh_token", JStr tok)]),
         [SetCredentials (JObj [("refresh_token", JStr tok)])])) /\
  (truthy_str (GOOGLE_REFRESH_TOKEN env) = false ->
   forall content tokens,
     token_file env = Some content -> JSON_parse env content = Some tokens ->
     loadTokens env c =
       (Ret true, Some tokens,
        [ReadTokenFile (Some content); SetCredentials tokens])) /\
  (truthy_str (GOOGLE_REFRESH_TOKEN env) = false ->
   persisted_token env = None ->
   loadTokens env c = (Ret false, c, [ReadTokenFile (token_file env)])) /\
  (exists b c' tr, loadTokens env c = (Ret b, c', tr)).
Proof.
  split; [|split; [|split]].
  - intros tok. apply loadTokens_from_env.
  - intros Henv content tokens. apply loadTokens_from_file. exact Henv.
  - apply loadTokens_nothing_found.
  - unfold_run.
    destruct (GOOGLE_REFRESH_TOKEN env) as [[|a s]|]; simpl;
      try (destruct (token_file env) as [content|];
           [destruct (JSON_parse env content)|]);
      eauto.
Qed.

Lemma loadTokens_resolution_witness :
  loadTokens (busy_env utc_host) None =
    (Ret true, Some (JObj [("refresh_token", JStr "1//refresh")]),
     [SetCredentials (JObj [("refresh_token", JStr "1//refresh")])]) /\
  loadTokens file_env None =
    (Ret true, Some (JObj []),
     [ReadTokenFile (Some "{}"); SetCredentials (JObj [])]) /\
  loadTokens (fresh_env utc_host) None = (Ret false, None, [ReadTokenFile None]).
Proof.
  split; [|split].
  - apply (proj1 (loadTokens_resolution (busy_env utc_host) None));
      [reflexivity | discriminate].
  - apply (proj1 (proj2 (loadTokens_resolution file_env None)));
      reflexivity.
  - apply (proj1 (proj2 (proj2
             (loadTokens_resolution (fresh_env utc_host) None))));
      reflexivity.
Defined.

(** ** The scheduling handler *)

(** C5.  A booking in which [name], [email] or [date] is missing or empty is
    answered with status 400, and nothing else happens: the credentials are
    not loaded, and neither [events.list] nor [events.insert] is called. *)
Theorem schedule_missing_field (env : Env) (req : ScheduleBody) (c : Creds) :
  truthy_str (b_name req) = false \/
  truthy_str (b_email req) = false \/
  truthy_str (b_date req) = false ->
  schedule env req c =
    (Ret (fail_with 400 "Missing required fields: name, email, date"), c, []).
Proof.
  intros H. unfold schedule.
  destruct (truthy_str (b_name req)), (truthy_str (b_email req)),
    (truthy_str (b_date req)); simpl; try reflexivity.
  destruct H as [H | [H | H]]; discriminate.
Qed.

Lemma schedule_missing_field_witness :
  schedule (busy_env utc_host)
    {| b_name := Some "Ana"; b_email := Some ""; b_date := None |} None =
    (Ret (fail_with 400 "Missing required fields: name, email, date"),
     None, []).
Proof.
  apply schedule_missing_field. right; left; reflexivity.
Defined.

(** What the handler does once the three fields are there. *)
Lemma schedule_valid (env : Env) (name email date0 : string) (c : Creds) :
  name <> "" -> email <> "" -> date0 <> "" ->
  schedule env
    {| b_name := Some name; b_email := Some email; b_date := Some date0 |} c =
  try_catch
    (c0 <- get_credentials ;;
     if negb (truthy_opt c0) then
       loadTokens env ;;;
       c' <- get_credentials ;;
       if negb (truthy_opt c') then ret not_authenticated
       else schedule_booking env name email (normalizeDate date0)
     else schedule_booking env name email (normalizeDate date0))
    schedule_catch c.
Proof.
  intros Hn He Hd. unfold schedule; simpl.
  destruct name; [congruence|]. destruct email; [congruence|].
  destruct date0; [congruence|]. reflexivity.
Qed.

(** A run of the handler either stops at the validation or is the run of the
    guarded body on three non-empty fields. *)
Lemma schedule_cases (env : Env) (req : ScheduleBody) (c : Creds) :
  schedule env req c =
    (Ret (fail_with 400 "Missing required fields: name, email, date"), c, [])
  \/
  exists name email date0,
    req = {| b_name := Some name; b_email := Some email;
             b_date := Some date0 |} /\
    name <> "" /\ email <> "" /\ date0 <> "".
Proof.
  destruct req as [[n|] [e|] [d|]];
    try (left; unfold schedule; simpl;
         repeat match goal with
                | |- context [Str.is_empty ?s] => destruct s; simpl
                end; reflexivity).
  destruct n as [|a n]; [left; reflexivity|].
  destruct e as [|b e]; [left; reflexivity|].
  destruct d as [|d0 d]; [left; reflexivity|].
  right. do 3 eexists. split; [reflexivity|]. repeat split; discriminate.
Qed.

Lemma schedule_booking_run (env : Env) (name email date : string) (c : Creds) :
  exists r c2 tr,
    schedule_booking env name email date c = (r, c2, tr) /\
    booking_run env name email date (r, tr).
Proof.
  unfold_run.
  destruct (JsDate.of_string (js_host env) date) as [t|] eqn:Hs; cbn [JsDate.plus JsDate.of_number].
  2:{ do 3 eexists; split; [reflexivity | now apply BookInvalidStart]. }
  change (60 * 60 * 1000) with 3600000.
  destruct (JsDate.TimeClip (t + 3600000)) as [t1|] eqn:Hc.
  2:{ do 3 eexists; split; [reflexivity | now apply BookInvalidEnd with t]. }
  assert (t1 = t + 3600000) as ->.
  { unfold JsDate.TimeClip in Hc.
    destruct (Z.abs (t + 3600000) <=? 8640000000000000); congruence. }
  match goal with
  | |- context [events_list env ?p] =>
      destruct (events_list env p) as [items|e] eqn:Hl
  end.
  2:{ do 3 eexists; split; [reflexivity|].
      eapply BookListFails; eauto. }
  destruct items as [[|ev evs]|].
  - match goal with
    | |- context [events_insert env ?p] =>
        destruct (events_insert env p) as [link|e] eqn:Hi
    end.
    + do 3 eexists; split; [reflexivity|].
      pose proof (BookInsert env name email date t _ (Some []) _ _
                    Hs eq_refl Hl (or_intror eq_refl) eq_refl Hi) as B.
      exact B.
    + do 3 eexists; split; [reflexivity|].
      pose proof (BookInsert env name email date t _ (Some []) _ _
                    Hs eq_refl Hl (or_intror eq_refl) eq_refl Hi) as B.
      exact B.
  - do 3 eexists; split; [reflexivity|].
    eapply BookConflict; eauto.
  - match goal with
    | |- context [events_insert env ?p] =>
        destruct (events_insert env p) as [link|e] eqn:Hi
    end.
    + do 3 eexists; split; [reflexivity|].
      pose proof (BookInsert env name email date t _ None _ _
                    Hs eq_refl Hl (or_introl eq_refl) eq_refl Hi) as B.
      exact B.
    + do 3 eexists; split; [reflexivity|].
      pose proof (BookInsert env name email date t _ None _ _
                    Hs eq_refl Hl (or_introl eq_refl) eq_refl Hi) as B.
      exact B.
Qed.

(** The effects of [loadTokens] never reach the calendar provider. *)
Lemma loadTokens_no_gateway (env : Env) (c : Creds) :
  exists b c1 pre,
    loadTokens env c = (Ret b, c1, pre) /\
    Forall (fun e => is_gateway_call e = false) pre.
Proof.
  unfold_run.
  destruct (GOOGLE_REFRESH_TOKEN env) as [[|a s]|]; simpl;
    try (destruct (token_file env) as [content|];
         [destruct (JSON_parse env content)|]);
    do 3 eexists; (split; [reflexivity|]); repeat constructor.
Qed.

(** A run of the handler on three non-empty fields: the credential check,
    then the booking, whose exception the [catch] block answers. *)
Lemma schedule_guarded_run (env : Env) (name email date0 : string) (c : Creds) :
  name <> "" -> email <> "" -> date0 <> "" ->
  exists c1 pre,
    Forall (fun e => is_gateway_call e = false) pre /\
    ((truthy_opt c1 = false /\
      schedule env
        {| b_name := Some name; b_email := Some email; b_date := Some date0 |}
        c = (Ret not_authenticated, c1, pre)) \/
     (truthy_opt c1 = true /\
      exists r c2 tr,
        booking_run env name email (normalizeDate date0) (r, tr) /\
        schedule env
          {| b_name := Some name; b_email := Some email;
             b_date := Some date0 |} c =
          (match r with
           | Ret x => Ret x
           | Throw e => Ret (schedule_error_response e)
           end, c2, (pre ++ tr)%list))).
Proof.
  intros Hn He Hd. rewrite (schedule_valid env name email date0 c Hn He Hd).
  unfold try_catch, bind, get_credentials.
  destruct (truthy_opt c) eqn:Hc; cbn [negb].
  - destruct (schedule_booking_run env name email (normalizeDate date0) c)
      as (r & c2 & tr & Hrun & Hb).
    exists c, []. split; [constructor|]. right. split; [exact Hc|].
    exists r, c2, tr. split; [exact Hb|]. rewrite Hrun.
    destruct r; cbn; rewrite ?app_nil_r; reflexivity.
  - destruct (loadTokens_no_gateway env c) as (b & c1 & pre & Hload & Hpre).
    rewrite Hload. exists c1, pre. split; [exact Hpre|].
    destruct (truthy_opt c1) eqn:Hc1; cbn [negb].
    + right. split; [reflexivity|].
      destruct (schedule_booking_run env name email (normalizeDate date0) c1)
        as (r & c2 & tr & Hrun & Hb).
      exists r, c2, tr. split; [exact Hb|]. rewrite Hrun.
      destruct r; cbn; rewrite ?app_nil_r; reflexivity.
    + left. split; [reflexivity|]. cbn. rewrite app_nil_r. reflexivity.
Qed.

Lemma in_after_prefix (e : Effect) (pre tr : list Effect) :
  Forall (fun x => is_gateway_call x = false) pre ->
  is_gateway_call e = true ->
  In e (pre ++ tr) -> In e tr.
Proof.
  intros Hpre He Hin. apply in_app_or in Hin. destruct Hin as [Hin|Hin]; auto.
  rewrite Forall_forall in Hpre. apply Hpre in Hin. congruence.
Qed.

Lemma no_insert_prefix (pre tr : list Effect) :
  Forall (fun x => is_gateway_call x = false) pre ->
  Forall (fun x => is_insert x = false) tr ->
  Forall (fun x => is_insert x = false) (pre ++ tr).
Proof.
  intros Hpre Htr. apply Forall_app. split; [|exact Htr].
  eapply Forall_impl; [|exact Hpre].
  intros [ | | | ] H; simpl in *; congruence.
Qed.

(** ** Substrings *)

Lemma prefix_extend (n s b : string) :
  String.prefix n s = true -> String.prefix n (s ++ b) = true.
Proof.
  revert s. induction n as [|a n IH]; intros s H.
  - destruct (s ++ b); reflexivity.
  - destruct s as [|x s]; [discriminate H|]. simpl in *.
    destruct (ascii_dec a x); [apply IH; exact H | discriminate H].
Qed.

Lemma prefix_self (n : string) : String.prefix n n = true.
Proof.
  induction n as [|a n IH]; simpl; [reflexivity|].
  destruct (ascii_dec a a); [exact IH | congruence].
Qed.

Lemma includes_self (n : string) : Str.includes n n = true.
Proof.
  destruct n; cbn [Str.includes]; [reflexivity|].
  rewrite prefix_self. reflexivity.
Qed.

Lemma includes_right (n s b : string) :
  Str.includes n s = true -> Str.includes n (s ++ b) = true.
Proof.
  induction s as [|x s IH]; intros H.
  - cbn [Str.includes] in H. rewrite orb_false_r in H.
    destruct n; [|discriminate H].
    destruct ("" ++ b); reflexivity.
  - cbn [Str.includes String.append] in *.
    apply orb_true_iff in H. destruct H as [H|H].
    + change (String x (s ++ b)) with (String x s ++ b).
      rewrite (prefix_extend n (String x s) b H). reflexivity.
    + rewrite (IH H). apply orb_true_r.
Qed.

Lemma includes_left (n a s : string) :
  Str.includes n s = true -> Str.includes n (a ++ s) = true.
Proof.
  intros H. induction a as [|x a IH]; [exact H|].
  cbn [String.append Str.includes]. rewrite IH. apply orb_true_r.
Qed.

Lemma prefix_decompose (n s : string) :
  String.prefix n s = true -> exists after, s = n ++ after.
Proof.
  revert s. induction n as [|a n IH]; intros s H.
  - exists s. reflexivity.
  - destruct s as [|x s]; [discriminate H|]. simpl in H.
    destruct (ascii_dec a x) as [->|]; [|discriminate H].
    destruct (IH s H) as (after & ->). exists after. reflexivity.
Qed.

(** [Str.includes] finds the needle exactly when the string is some text,
    the needle, and some text. *)
Lemma includes_decompose (n s : string) :
  Str.includes n s = true <-> exists before after, s = before ++ n ++ after.
Proof.
  split.
  - induction s as [|x s IH]; cbn [Str.includes]; intros H.
    + rewrite orb_false_r in H. apply prefix_decompose in H.
      destruct H as (after & H). exists "", after. exact H.
    + apply orb_true_iff in H. destruct H as [H|H].
      * apply prefix_decompose in H. destruct H as (after & H).
        exists "", after. exact H.
      * destruct (IH H) as (before & after & ->).
        exists (String x before), after. reflexivity.
  - intros (before & after & ->).
    apply includes_left, includes_right, includes_self.
Qed.

Lemma indicates_invalid_grant_test (e : JsError) :
  indicates_invalid_grant e <->
  code_is_401 e || Str.includes "invalid_grant" (message e) = true.
Proof.
  unfold indicates_invalid_grant, code_is_401.
  rewrite orb_true_iff, includes_decompose. split; intros [H|H]; auto.
  - left. rewrite H. reflexivity.
  - left. destruct (code e) as [|n|s]; try discriminate.
    apply Z.eqb_eq in H. congruence.
Qed.

Lemma schedule_error_response_status (e : JsError) :
  status (schedule_error_response e) = 401 \/
  status (schedule_error_response e) = 500.
Proof.
  unfold schedule_error_response.
  destruct (code_is_401 e || Str.includes "invalid_grant" (message e)); auto.
Qed.

(** The handler always answers: no exception leaves it. *)
Lemma schedule_total (env : Env) (req : ScheduleBody) (c : Creds) :
  exists resp c' tr, schedule env req c = (Ret resp, c', tr).
Proof.
  destruct (schedule_cases env req c)
    as [H | (name & email & date0 & -> & Hn & He & Hd)]; [eauto|].
  destruct (schedule_guarded_run env name email date0 c Hn He Hd)
    as (c1 & pre & _ & [[_ H] | (_ & r & c2 & tr & _ & H)]); rewrite H.
  - eauto.
  - destruct r; eauto.
Qed.

(** C3.  When the conflict check of a booking, the [events.list] query of the
    hour that starts at the booking's time, returns at least one event, the
    answer is 409 and [events.insert] is not called. *)
Theorem schedule_conflict (env : Env) (req : ScheduleBody) (c c' : Creds)
    (r : Result Response) (tr : list Effect)
    (p : ListParams) (items : list ProviderEvent) :
  schedule env req c = (r, c', tr) ->
  In (EventsList p (GOk (Some items))) tr ->
  items <> [] ->
  r = Ret (fail_with 409 "Horário indisponível! Alguém acabou de agendar.") /\
  Forall (fun e => is_insert e = false) tr /\
  exists date0 t,
    b_date req = Some date0 /\
    JsDate.of_string (js_host env) (normalizeDate date0) = Some t /\
    l_timeMin p = JsDate.iso_string t /\
    l_timeMax p = JsDate.iso_string (t + 60 * JsDate.msPerMinute).
Proof.
  intros Hrun Hin Hne.
  destruct (schedule_cases env req c)
    as [H | (name & email & date0 & -> & Hn & He & Hd)].
  { rewrite H in Hrun. inversion Hrun; subst. contradiction. }
  destruct (schedule_guarded_run env name email date0 c Hn He Hd)
    as (c1 & pre & Hpre & [[_ H] | (_ & r0 & c2 & tr0 & Hb & H)]);
    rewrite H in Hrun; inversion Hrun; subst; clear Hrun.
  { rewrite Forall_forall in Hpre. apply Hpre in Hin. discriminate. }
  apply in_after_prefix in Hin; [|assumption|reflexivity].
  inversion Hb; subst; simpl in Hin;
    repeat match goal with
           | H : _ \/ _ |- _ => destruct H
           | H : False |- _ => contradiction
           | H : EventsList _ _ = EventsList _ _ |- _ =>
               inversion H; subst; clear H
           | H : EventsInsert _ _ = EventsList _ _ |- _ => discriminate H
           end; try congruence.
  split; [reflexivity|]. split.
  - apply no_insert_prefix; [assumption|]. repeat constructor.
  - exists date0, t. repeat split; auto.
Qed.

Lemma schedule_conflict_witness :
  result_of (schedule (busy_env sao_paulo_host) ana None) =
    Ret (fail_with 409 "Horário indisponível! Alguém acabou de agendar.") /\
  Forall (fun e => is_insert e = false)
    (trace_of (schedule (busy_env sao_paulo_host) ana None)).
Proof.
  pose proof (schedule_conflict (busy_env sao_paulo_host) ana None
                (creds_of (schedule (busy_env sao_paulo_host) ana None))
                (result_of (schedule (busy_env sao_paulo_host) ana None))
                (trace_of (schedule (busy_env sao_paulo_host) ana None))
                {| l_calendarId := "primary";
                   l_timeMin := "2026-01-10T17:00:00.000Z";
                   l_timeMax := "2026-01-10T18:00:00.000Z";
                   l_timeZone := "America/Sao_Paulo";
                   l_singleEvents := true;
                   l_orderBy := None |}
                [meeting]) as H.
  destruct H as (H1 & H2 & _).
  - vm_compute. reflexivity.
  - vm_compute. right. left. reflexivity.
  - discriminate.
  - split; assumption.
Defined.

(** C6.  A booking that is answered with success has sent the provider, after
    the conflict check, one [events.insert] whose event starts at the
    booking's time and ends exactly 60 minutes later, invites the requester's
    email, disables the default reminders in favour of exactly two overrides
    (an email 1440 minutes before, a popup 10 minutes before) and asks for a
    conferencing link, with the attendees notified. *)
Theorem schedule_success_event (env : Env) (req : ScheduleBody) (c c' : Creds)
    (resp : Response) (tr : list Effect) :
  schedule env req c = (Ret resp, c', tr) ->
  status resp = 200 ->
  exists name email date0 t pre lp lr ip link,
    req = {| b_name := Some name; b_email := Some email;
             b_date := Some date0 |} /\
    tr = (pre ++ [EventsList lp lr; EventsInsert ip (GOk link)])%list /\
    Forall (fun e => is_gateway_call e = false) pre /\
    resp = ok_with (Scheduled "Evento agendado com sucesso!" link) /\
    JsDate.of_string (js_host env) (normalizeDate date0) = Some t /\
    e_dateTime (start (i_resource ip)) = JsDate.iso_string t /\
    e_dateTime (end_ (i_resource ip)) =
      JsDate.iso_string (t + 60 * JsDate.msPerMinute) /\
    attendees (i_resource ip) = [ {| a_email := email |} ] /\
    reminders (i_resource ip) =
      {| useDefault := false;
         overrides := [ {| r_method := "email"; r_minutes := 1440 |};
                        {| r_method := "popup"; r_minutes := 10 |} ] |} /\
    conferenceData (i_resource ip) =
      {| createRequest :=
           {| requestId := "meet-" ++ Str.of_Z (Date_now env);
              conferenceSolutionKey_type := "hangoutsMeet" |} |} /\
    i_conferenceDataVersion ip = 1 /\
    i_sendUpdates ip = "all" /\
    i_calendarId ip = "primary".
Proof.
  intros Hrun Hst.
  destruct (schedule_cases env req c)
    as [H | (name & email & date0 & -> & Hn & He & Hd)].
  { rewrite H in Hrun. inversion Hrun; subst. discriminate. }
  destruct (schedule_guarded_run env name email date0 c Hn He Hd)
    as (c1 & pre & Hpre & [[_ H] | (_ & r0 & c2 & tr0 & Hb & H)]);
    rewrite H in Hrun; inversion Hrun; subst; clear Hrun.
  { discriminate. }
  assert (forall e, status (schedule_error_response e) = 200 -> False) as Herr.
  { intros e He200.
    destruct (schedule_error_response_status e) as [E|E];
      rewrite E in He200; discriminate. }
  inversion Hb; subst;
    try (match goal with
         | H : Ret _ = Ret _ |- _ => inversion H; subst; clear H
         end);
    try (exfalso; eapply Herr; eassumption);
    try discriminate.
  destruct (events_insert env _) as [link|e] eqn:Hi.
  - match goal with
    | H : Ret _ = Ret _ |- _ => inversion H; subst; clear H
    end.
    exists name, email, date0, t, pre. do 3 eexists. exists link.
    split; [reflexivity|]. split; [reflexivity|].
    repeat split; auto.
  - match goal with
    | H : Ret _ = Ret _ |- _ => inversion H; subst; clear H
    end.
    exfalso; eapply Herr; eassumption.
Qed.

Lemma schedule_success_event_witness :
  exists ip link,
    trace_of (schedule (fresh_env utc_host) ana (Some (JObj []))) =
      [EventsList
         {| l_calendarId := "primary";
            l_timeMin := "2026-01-10T17:00:00.000Z";
            l_timeMax := "2026-01-10T18:00:00.000Z";
            l_timeZone := "America/Sao_Paulo";
            l_singleEvents := true;
            l_orderBy := None |} (GOk (Some []));
       EventsInsert ip (GOk link)] /\
    e_dateTime (start (i_resource ip)) = "2026-01-10T17:00:00.000Z" /\
    e_dateTime (end_ (i_resource ip)) = "2026-01-10T18:00:00.000Z" /\
    attendees (i_resource ip) = [ {| a_email := "ana@x.com" |} ].
Proof.
  destruct (schedule_success_event (fresh_env utc_host) ana
              (Some (JObj [])) (Some (JObj []))
              (ok_with (Scheduled "Evento agendado com sucesso!"
                          (Some "https://calendar.example/event")))
              (trace_of (schedule (fresh_env utc_host) ana (Some (JObj [])))))
    as (name & email & date0 & t & pre & lp & lr & ip & link & Hreq & Htr &
        Hpre & _ & Ht & Hs & He & Ha & _).
  - vm_compute. reflexivity.
  - reflexivity.
  - inversion Hreq; subst. exists ip, link.
    vm_compute in Ht. inversion Ht; subst.
    rewrite Hs, He, Ha. rewrite Htr.
    assert (pre = [] /\ lp = {| l_calendarId := "primary";
            l_timeMin := "2026-01-10T17:00:00.000Z";
            l_timeMax := "2026-01-10T18:00:00.000Z";
            l_timeZone := "America/Sao_Paulo";
            l_singleEvents := true;
            l_orderBy := None |} /\ lr = GOk (Some [])) as (-> & -> & ->).
    { vm_compute in Htr.
      destruct pre as [|x [|y [|z pre]]]; simpl in Htr; inversion Htr; subst;
        try (split; [reflexivity|split; reflexivity]). }
    repeat split; vm_compute; reflexivity.
Defined.

(** C8.  When a gateway call of a booking fails, the handler answers (it does
    not throw), with 401 and the fixed "expired" message exactly when the
    error carries the code 401 or a message that contains [invalid_grant],
    and with 500 and the error's message otherwise. *)
Theorem schedule_gateway_failure (env : Env) (req : ScheduleBody)
    (c c' : Creds) (r : Result Response) (tr : list Effect) (e : JsError) :
  schedule env req c = (r, c', tr) ->
  gateway_failed tr e ->
  exists resp,
    r = Ret resp /\
    (indicates_invalid_grant e ->
     resp = fail_with 401
              "Authentication expired. Admin needs to visit /auth again.") /\
    (~ indicates_invalid_grant e ->
     resp = fail_with 500
              ("Error contacting Google Calendar: " ++ message e)) /\
    (status resp = 401 <-> indicates_invalid_grant e).
Proof.
  intros Hrun Hfail.
  assert (forall tr0 pre,
             Forall (fun x => is_gateway_call x = false) pre ->
             gateway_failed (pre ++ tr0) e -> gateway_failed tr0 e) as Hskip.
  { intros tr0 pre Hpre [[p Hin] | [p Hin]];
      apply in_after_prefix in Hin; try assumption; try reflexivity;
      [left | right]; eauto. }
  assert (exists resp,
             Ret (schedule_error_response e) = Ret resp /\
             (indicates_invalid_grant e ->
              resp = fail_with 401
                "Authentication expired. Admin needs to visit /auth again.") /\
             (~ indicates_invalid_grant e ->
              resp = fail_with 500
                ("Error contacting Google Calendar: " ++ message e)) /\
             (status resp = 401 <-> indicates_invalid_grant e)) as Hans.
  { exists (schedule_error_response e). split; [reflexivity|].
    unfold schedule_error_response.
    rewrite (indicates_invalid_grant_test e).
    destruct (code_is_401 e || Str.includes "invalid_grant" (message e));
      repeat split; intros; try reflexivity; try congruence;
      simpl in *; try discriminate. }
  destruct (schedule_cases env req c)
    as [H | (name & email & date0 & -> & Hn & He & Hd)].
  { rewrite H in Hrun. inversion Hrun; subst.
    destruct Hfail as [[p []] | [p []]]. }
  destruct (schedule_guarded_run env name email date0 c Hn He Hd)
    as (c1 & pre & Hpre & [[_ H] | (_ & r0 & c2 & tr0 & Hb & H)]);
    rewrite H in Hrun; inversion Hrun; subst; clear Hrun.
  { rewrite Forall_forall in Hpre.
    destruct Hfail as [[p Hin] | [p Hin]]; apply Hpre in Hin; discriminate. }
  apply Hskip in Hfail; auto.
  inversion Hb; subst;
    destruct Hfail as [[p0 Hin] | [p0 Hin]]; simpl in Hin;
    repeat match goal with
           | H : _ \/ _ |- _ => destruct H
           | H : False |- _ => contradiction
           | H : EventsList _ _ = EventsList _ _ |- _ =>
               inversion H; subst; clear H
           | H : EventsInsert _ _ = EventsInsert _ _ |- _ =>
               inversion H; subst; clear H
           | H : EventsInsert _ _ = EventsList _ _ |- _ => discriminate H
           | H : EventsList _ _ = EventsInsert _ _ |- _ => discriminate H
           end; try congruence; try exact Hans.
  all: match goal with
       | H : events_insert _ _ = GFail _ |- _ => rewrite H
       end; exact Hans.
Qed.

Lemma schedule_gateway_failure_witness :
  result_of (schedule (failing_env revoked) ana None) =
    Ret (fail_with 401
           "Authentication expired. Admin needs to visit /auth again.") /\
  result_of
    (schedule
       (failing_env {| code := CodeNum 401; message := "Invalid Credentials" |})
       ana None) =
    Ret (fail_with 401
           "Authentication expired. Admin needs to visit /auth again.") /\
  result_of
    (schedule
       (failing_env {| code := CodeNum 403; message := "Rate Limit Exceeded" |})
       ana None) =
    Ret (fail_with 500
           "Error contacting Google Calendar: Rate Limit Exceeded").
Proof.
  assert (forall e,
             gateway_failed (trace_of (schedule (failing_env e) ana None)) e)
    as Hfail.
  { intros e. left. eexists. cbn. right. left. reflexivity. }
  split; [|split].
  - destruct (schedule_gateway_failure (failing_env revoked) ana None
                _ _ _ revoked (run_eta _) (Hfail revoked))
      as (resp & Hr & H401 & _).
    rewrite Hr. f_equal. apply H401.
    right. exists "", ": Token has been expired or revoked.". reflexivity.
  - destruct (schedule_gateway_failure
                (failing_env {| code := CodeNum 401;
                                message := "Invalid Credentials" |})
                ana None _ _ _
                {| code := CodeNum 401; message := "Invalid Credentials" |}
                (run_eta _)
                (Hfail {| code := CodeNum 401;
                          message := "Invalid Credentials" |}))
      as (resp & Hr & H401 & _).
    rewrite Hr. f_equal. apply H401.
    left. reflexivity.
  - destruct (schedule_gateway_failure
                (failing_env {| code := CodeNum 403;
                                message := "Rate Limit Exceeded" |})
                ana None _ _ _
                {| code := CodeNum 403; message := "Rate Limit Exceeded" |}
                (run_eta _)
                (Hfail {| code := CodeNum 403;
                          message := "Rate Limit Exceeded" |}))
      as (resp & Hr & _ & H500 & _).
    rewrite Hr. f_equal. apply H500.
    intros [Hcode | Hsub]; [discriminate Hcode|].
    apply includes_decompose in Hsub. discriminate Hsub.
Defined.

(** ** The availability handler *)

(** The query behind the credential check: the window is computed from the
    date, then [events.list] is called once; the credentials change only
    through that call. *)
Lemma availability_query_run (env : Env) (d : string) (c : Creds) :
  exists r c2 tr,
    availability_query env d c = (r, c2, tr) /\
    query_run env d r tr /\
    (tr = [] -> c2 = c).
Proof.
  unfold_run. unfold TIMEZONE, query_run.
  destruct (JsDate.setHours (js_host env)
              (JsDate.of_string (js_host env) d) 0 0 0 0) as [t0|] eqn:H0.
  2:{ do 3 eexists. split; [reflexivity|]. split; [|reflexivity].
      left. split; reflexivity. }
  destruct (JsDate.setHours (js_host env)
              (JsDate.of_string (js_host env) d) 23 59 59 999)
    as [t1|] eqn:H1.
  2:{ do 3 eexists. split; [reflexivity|]. split; [|reflexivity].
      left. split; reflexivity. }
  match goal with
  | |- context [events_list env ?p] =>
      destruct (events_list env p) as [items|e] eqn:Hl
  end.
  - do 3 eexists. split; [reflexivity|]. split; [|discriminate]. right.
    exists t0, t1. eexists. repeat split; try reflexivity.
    + rewrite Hl. reflexivity.
    + rewrite Hl. reflexivity.
  - do 3 eexists. split; [reflexivity|]. split; [|discriminate]. right.
    exists t0, t1. eexists. repeat split; try reflexivity.
    + rewrite Hl. reflexivity.
    + rewrite Hl. reflexivity.
Qed.

(** A run of the handler on a date that is there: the credential check, then
    the query, whose exception the [catch] block answers with 500. *)
Lemma availability_guarded_run (env : Env) (d : string) (c : Creds) :
  d <> "" ->
  exists c1 pre,
    Forall (fun e => is_gateway_call e = false) pre /\
    ((truthy_opt c1 = false /\
      availability env (Some d) c = (Ret not_authenticated, c1, pre)) \/
     (truthy_opt c1 = true /\
      exists r c2 tr,
        query_run env d r tr /\
        (tr = [] -> c2 = c1) /\
        availability env (Some d) c =
          (match r with
           | Ret x => Ret x
           | Throw e =>
               Ret (fail_with 500
                      ("Error checking availability: " ++ message e))
           end, c2, (pre ++ tr)%list))).
Proof.
  intros Hd. unfold availability.
  destruct d as [|a d]; [congruence|]. cbn [Str.is_empty].
  unfold try_catch, bind, get_credentials.
  destruct (truthy_opt c) eqn:Hc; cbn [negb].
  - destruct (availability_query_run env (String a d) c)
      as (r & c2 & tr & Hrun & Hq & Hsame).
    exists c, []. split; [constructor|]. right. split; [exact Hc|].
    exists r, c2, tr. split; [exact Hq|]. split; [exact Hsame|].
    rewrite Hrun.
    destruct r; cbn; rewrite ?app_nil_r; reflexivity.
  - destruct (loadTokens_no_gateway env c) as (b & c1 & pre & Hload & Hpre).
    rewrite Hload. exists c1, pre. split; [exact Hpre|].
    destruct (truthy_opt c1) eqn:Hc1; cbn [negb].
    + right. split; [reflexivity|].
      destruct (availability_query_run env (String a d) c1)
        as (r & c2 & tr & Hrun & Hq & Hsame).
      exists r, c2, tr. split; [exact Hq|]. split; [exact Hsame|].
      rewrite Hrun.
      destruct r; cbn; rewrite ?app_nil_r; reflexivity.
    + left. split; [reflexivity|]. cbn. rewrite app_nil_r. reflexivity.
Qed.

Lemma availability_missing_date (env : Env) (date : option string) (c : Creds) :
  truthy_str date = false ->
  availability env date c =
    (Ret (fail_with 400 "Missing required query parameter: date"), c, []).
Proof.
  destruct date as [[|a d]|]; simpl; intros H; try discriminate; reflexivity.
Qed.

(** C9.  Every slot of a successful availability answer comes from one event
    the provider returned, in the same order; its label is the fixed text
    [Ocupado] whatever the event's title is, and its start and end are the
    event's: the [dateTime] when the event has a non-empty one, and the
    [date] of an all-day event otherwise. *)
Theorem availability_slots (env : Env) (query : option string) (c c' : Creds)
    (resp : Response) (tr : list Effect) (slots : list BusySlot) :
  availability env query c = (Ret resp, c', tr) ->
  body resp = Slots slots ->
  exists pre p items,
    tr = (pre ++ [EventsList p (GOk items)])%list /\
    let events := match items with Some l => l | None => [] end in
    List.length slots = List.length events /\
    Forall (fun s => slot_summary s = "Ocupado") slots /\
    (forall i ev,
        nth_error events i = Some ev ->
        exists s,
          nth_error slots i = Some s /\
          slot_summary s = "Ocupado" /\
          (forall v, dateTime (ev_start ev) = Some v -> v <> "" ->
                     slot_start s = Some v) /\
          (dateTime (ev_start ev) = None \/ dateTime (ev_start ev) = Some "" ->
           slot_start s = date (ev_start ev)) /\
          (forall v, dateTime (ev_end ev) = Some v -> v <> "" ->
                     slot_end s = Some v) /\
          (dateTime (ev_end ev) = None \/ dateTime (ev_end ev) = Some "" ->
           slot_end s = date (ev_end ev))) /\
    (forall i ev title,
        nth_error events i = Some ev ->
        nth_error slots i =
          Some (busySlot {| ev_summary := title; ev_start := ev_start ev;
                            ev_end := ev_end ev |})).
Proof.
  intros Hrun Hbody.
  destruct (truthy_str query) eqn:Hdate.
  2:{ rewrite (availability_missing_date env query c Hdate) in Hrun.
      inversion Hrun; subst. discriminate. }
  destruct query as [d|]; [|discriminate].
  assert (d <> "") as Hd by (destruct d; [discriminate | congruence]).
  destruct (availability_guarded_run env d c Hd)
    as (c1 & pre & Hpre & [[_ H] | (_ & r & c2 & tr0 & Hq & _ & H)]);
    rewrite H in Hrun; inversion Hrun as [[Hresp Hcreds Htrace]];
    clear Hrun.
  { subst resp. discriminate. }
  destruct Hq as [[-> ->] | (t0 & t1 & p & _ & _ & _ & -> & ->)].
  { inversion Hresp; subst resp. discriminate. }
  destruct (events_list env p) as [items|e].
  2:{ inversion Hresp; subst resp. discriminate. }
  inversion Hresp; subst resp. simpl in Hbody. inversion Hbody; subst slots.
  exists pre, p, items. split; [reflexivity|]. cbv zeta.
  split; [apply length_map|].
  split; [|split].
  - apply Forall_forall. intros s Hs. apply in_map_iff in Hs.
    destruct Hs as (ev & <- & _). reflexivity.
  - intros i ev Hnth. exists (busySlot ev).
    split; [apply map_nth_error; exact Hnth|].
    split; [reflexivity|].
    unfold busySlot, or_else; cbn [slot_start slot_end].
    repeat split.
    + intros v Hv Hne. rewrite Hv. destruct v; [congruence | reflexivity].
    + intros [Hv | Hv]; rewrite Hv; reflexivity.
    + intros v Hv Hne. rewrite Hv. destruct v; [congruence | reflexivity].
    + intros [Hv | Hv]; rewrite Hv; reflexivity.
  - intros i ev title Hnth.
    rewrite (map_nth_error busySlot i _ Hnth). reflexivity.
Qed.

Lemma availability_slots_witness :
  exists s,
    nth_error
      [ {| slot_start := Some "2026-01-10T14:00:00-03:00";
           slot_end := Some "2026-01-10T15:00:00-03:00";
           slot_summary := "Ocupado" |};
        {| slot_start := Some "2026-01-10";
           slot_end := Some "2026-01-11";
           slot_summary := "Ocupado" |} ] 1 = Some s /\
    slot_summary s = "Ocupado" /\
    slot_start s = date (ev_start holiday) /\
    slot_end s = date (ev_end holiday).
Proof.
  destruct (availability_slots mixed_env (Some "2026-01-10") None
              (creds_of (availability mixed_env (Some "2026-01-10") None))
              (ok_with
                 (Slots
                    [ {| slot_start := Some "2026-01-10T14:00:00-03:00";
                         slot_end := Some "2026-01-10T15:00:00-03:00";
                         slot_summary := "Ocupado" |};
                      {| slot_start := Some "2026-01-10";
                         slot_end := Some "2026-01-11";
                         slot_summary := "Ocupado" |} ]))
              (trace_of (availability mixed_env (Some "2026-01-10") None))
              [ {| slot_start := Some "2026-01-10T14:00:00-03:00";
                   slot_end := Some "2026-01-10T15:00:00-03:00";
                   slot_summary := "Ocupado" |};
                {| slot_start := Some "2026-01-10";
                   slot_end := Some "2026-01-11";
                   slot_summary := "Ocupado" |} ])
    as (pre & p & items & Htr & _ & _ & Hnth & _).
  - vm_compute. reflexivity.
  - reflexivity.
  - assert (items = Some [meeting; holiday]) as ->.
    { vm_compute in Htr.
      match type of Htr with
      | [?x; ?y] = _ => change [x; y] with ([x] ++ [y])%list in Htr
      end.
      apply app_inj_tail in Htr. destruct Htr as [_ Htr].
      inversion Htr. reflexivity. }
    destruct (Hnth 1%nat holiday eq_refl)
      as (s & Hs & Hsum & _ & Hstart & _ & Hend).
    exists s. split; [exact Hs|]. split; [exact Hsum|].
    split; [apply Hstart | apply Hend]; left; reflexivity.
Defined.

(** The credential check on an empty slot: a request that passes the input
    check, made when the slot holds nothing truthy, the environment holds no
    refresh token and no token can be read from the file, is answered with
    401, and the only effect is the attempt to read the token file. *)
Lemma auth_check_on_empty_slot (env : Env) (c : Creds) :
  truthy_opt c = false ->
  truthy_str (GOOGLE_REFRESH_TOKEN env) = false ->
  persisted_token env = None ->
  (forall d,
      d <> "" ->
      availability env (Some d) c =
        (Ret (fail_with 401 "Backend not authenticated. Please visit /auth"),
         c, [ReadTokenFile (token_file env)])) /\
  (forall name email date0,
      name <> "" -> email <> "" -> date0 <> "" ->
      schedule env
        {| b_name := Some name; b_email := Some email; b_date := Some date0 |}
        c =
        (Ret (fail_with 401 "Backend not authenticated. Please visit /auth"),
         c, [ReadTokenFile (token_file env)])).
Proof.
  intros Hc Henv Hfile.
  pose proof (loadTokens_nothing_found env c Henv Hfile) as Hload.
  split.
  - intros d Hd. unfold availability.
    destruct d as [|a d]; [congruence|]. cbn [Str.is_empty].
    unfold try_catch, bind, get_credentials.
    rewrite Hc. cbn [negb]. rewrite Hload, Hc. reflexivity.
  - intros name email date0 Hn He Hd.
    rewrite (schedule_valid env name email date0 c Hn He Hd).
    unfold try_catch, bind, get_credentials.
    rewrite Hc. cbn [negb]. rewrite Hload, Hc. reflexivity.
Qed.

(** C2, on the code.  A process that has just started holds the client's
    initial credentials, the empty object, and the empty object is truthy.
    With no refresh token in the environment and no token file, both
    handlers therefore pass their credential check without calling
    [loadTokens], call [events.list], and answer 500 with the client's error:
    not the 401 of the check, and not without a call on the provider. *)
Theorem fresh_process_passes_auth_check :
  truthy_opt initial_credentials = true /\
  truthy_str (GOOGLE_REFRESH_TOKEN tokenless_env) = false /\
  persisted_token tokenless_env = None /\
  availability tokenless_env (Some "2026-01-10") initial_credentials =
    (Ret (fail_with 500
            ("Error checking availability: " ++ message no_access)),
     initial_credentials,
     [EventsList
        {| l_calendarId := "primary";
           l_timeMin := "2026-01-10T00:00:00.000Z";
           l_timeMax := "2026-01-10T23:59:59.999Z";
           l_timeZone := "America/Sao_Paulo";
           l_singleEvents := true;
           l_orderBy := Some "startTime" |} (GFail no_access)]) /\
  schedule tokenless_env ana initial_credentials =
    (Ret (fail_with 500
            ("Error contacting Google Calendar: " ++ message no_access)),
     initial_credentials,
     [EventsList
        {| l_calendarId := "primary";
           l_timeMin := "2026-01-10T17:00:00.000Z";
           l_timeMax := "2026-01-10T18:00:00.000Z";
           l_timeZone := "America/Sao_Paulo";
           l_singleEvents := true;
           l_orderBy := None |} (GFail no_access)]).
Proof.
  repeat split; vm_compute; reflexivity.
Qed.

(** C1, on the code.  The window of the availability query is the day of the
    server's local time zone in which the parsed date falls, not the day of
    America/Sao_Paulo.  For [2025-12-25], whose day in America/Sao_Paulo is
    [2025-12-25T03:00:00.000Z] to [2025-12-26T02:59:59.999Z], a server on UTC
    queries the UTC day, and a server on America/Sao_Paulo time queries the
    day before. *)
Theorem availability_window_is_server_local :
  trace_of (availability (busy_env utc_host) (Some "2025-12-25")
              (Some (JObj []))) =
    [EventsList
       {| l_calendarId := "primary";
          l_timeMin := "2025-12-25T00:00:00.000Z";
          l_timeMax := "2025-12-25T23:59:59.999Z";
          l_timeZone := "America/Sao_Paulo";
          l_singleEvents := true;
          l_orderBy := Some "startTime" |} (GOk (Some [meeting]))] /\
  trace_of (availability (busy_env sao_paulo_host) (Some "2025-12-25")
              (Some (JObj []))) =
    [EventsList
       {| l_calendarId := "primary";
          l_timeMin := "2025-12-24T03:00:00.000Z";
          l_timeMax := "2025-12-25T02:59:59.999Z";
          l_timeZone := "America/Sao_Paulo";
          l_singleEvents := true;
          l_orderBy := Some "startTime" |} (GOk (Some [meeting]))] /\
  option_map JsDate.iso_string
    (JsDate.of_string utc_host "2025-12-25T00:00:00.000-03:00") =
    Some "2025-12-25T03:00:00.000Z" /\
  option_map JsDate.iso_string
    (JsDate.of_string utc_host "2025-12-25T23:59:59.999-03:00") =
    Some "2025-12-26T02:59:59.999Z".
Proof.
  repeat split; vm_compute; reflexivity.
Qed.

(** ** The normalisation of the booking time *)

(** Take the next character of the string in [H : Regex.test _ _ = true]. *)
Ltac next_digit H d :=
  let c := fresh "c" in
  let Hc := fresh "Hc" in
  destruct d as [|c d];
  cbn [Regex.test Regex.eat_digits Str.is_empty] in H;
  [discriminate H|];
  destruct (Str.is_digit c) eqn:Hc;
  cbn [Regex.test Regex.eat_digits Str.is_empty] in H;
  [|discriminate H].

Ltac next_lit H d :=
  let c := fresh "c" in
  let Hc := fresh "Hc" in
  destruct d as [|c d];
  cbn [Regex.test Regex.eat_digits Str.is_empty] in H;
  [discriminate H|];
  apply andb_prop in H; destruct H as [Hc H];
  apply Ascii.eqb_eq in Hc; subst c.

(** A string the pattern matches is nineteen characters, digits around the
    separators. *)
Lemma naive_shape (d : string) :
  Regex.test naive_pattern d = true ->
  exists y1 y2 y3 y4 m1 m2 d1 d2 h1 h2 n1 n2 s1 s2,
    d = String y1 (String y2 (String y3 (String y4 (String "-"
        (String m1 (String m2 (String "-"
        (String d1 (String d2 (String "T"
        (String h1 (String h2 (String ":"
        (String n1 (String n2 (String ":"
        (String s1 (String s2 "")))))))))))))))))) /\
    Forall (fun c => Str.is_digit c = true)
      [y1; y2; y3; y4; m1; m2; d1; d2; h1; h2; n1; n2; s1; s2].
Proof.
  intros H. unfold naive_pattern in H.
  do 4 next_digit H d. next_lit H d.
  do 2 next_digit H d. next_lit H d.
  do 2 next_digit H d. next_lit H d.
  do 2 next_digit H d. next_lit H d.
  do 2 next_digit H d. next_lit H d.
  do 2 next_digit H d.
  destruct d; [|discriminate H].
  do 14 eexists. split; [reflexivity|].
  repeat constructor; assumption.
Qed.

Lemma naive_length (d : string) :
  Regex.test naive_pattern d = true -> String.length d = 19%nat.
Proof.
  intros H. apply naive_shape in H.
  destruct H as (y1 & y2 & y3 & y4 & m1 & m2 & d1 & d2 & h1 & h2 & n1 & n2 &
                 s1 & s2 & -> & _).
  reflexivity.
Qed.

Lemma append_length (s t : string) :
  String.length (s ++ t) = (String.length s + String.length t)%nat.
Proof.
  induction s as [|a s IH]; simpl; [reflexivity | now rewrite IH].
Qed.

Lemma naive_extended (d sfx : string) :
  Regex.test naive_pattern d = true -> sfx <> "" ->
  Regex.test naive_pattern (d ++ sfx) = false.
Proof.
  intros H Hs.
  destruct (Regex.test naive_pattern (d ++ sfx)) eqn:E; [|reflexivity].
  apply naive_length in E. apply naive_length in H.
  rewrite append_length, H in E.
  destruct sfx; [congruence | simpl in E; lia].
Qed.

(** The fields the parser reads from a matching string, alone and followed by
    [Z] or by [-03:00]: the same date and time, and the designator. *)
Lemma naive_parse (d : string) :
  Regex.test naive_pattern d = true ->
  exists Y M D h m s,
    JsDate.parse_iso d =
      Some {| JsDate.f_year := Y; JsDate.f_month := M; JsDate.f_day := D;
              JsDate.f_time := Some (h, m, s, 0);
              JsDate.f_offset := None;
              JsDate.f_offset_legal := true |} /\
    JsDate.parse_iso (d ++ "Z") =
      Some {| JsDate.f_year := Y; JsDate.f_month := M; JsDate.f_day := D;
              JsDate.f_time := Some (h, m, s, 0);
              JsDate.f_offset := Some 0;
              JsDate.f_offset_legal := true |} /\
    JsDate.parse_iso (d ++ "-03:00") =
      Some {| JsDate.f_year := Y; JsDate.f_month := M; JsDate.f_day := D;
              JsDate.f_time := Some (h, m, s, 0);
              JsDate.f_offset := Some (-180);
              JsDate.f_offset_legal := true |}.
Proof.
  intros H. apply naive_shape in H.
  destruct H as (y1 & y2 & y3 & y4 & m1 & m2 & d1 & d2 & h1 & h2 & n1 & n2 &
                 s1 & s2 & -> & Hd).
  repeat match goal with
         | H : Forall _ (_ :: _) |- _ => inversion H; subst; clear H
         | H : Forall _ [] |- _ => clear H
         end.
  do 6 eexists.
  unfold JsDate.parse_iso, JsDate.parse_day, JsDate.finish, JsDate.parse_time,
    JsDate.parse_seconds, JsDate.parse_fraction.
  cbn [JsDate.number String.append].
  repeat match goal with
         | H : Str.is_digit ?c = true |- _ => rewrite !H; clear H
         end.
  split; [|split]; reflexivity.
Qed.

(** C4, as the handler has it.  A booking time that matches the pattern
    [YYYY-MM-DDTHH:MM:SS] exactly is used with [-03:00] appended; the parser
    then reads the designator, so the time value is the same on every host
    (it is not read as server-local time) and lies three hours after the
    value of the same date and time read as UTC. *)
Theorem naive_date_gets_offset (d : string) :
  Regex.test naive_pattern d = true ->
  normalizeDate d = d ++ "-03:00" /\
  (exists f,
      JsDate.parse_iso (normalizeDate d) = Some f /\
      JsDate.f_offset f = Some (-180)) /\
  (forall h1 h2,
      JsDate.of_string h1 (normalizeDate d) =
      JsDate.of_string h2 (normalizeDate d)) /\
  (forall h,
      JsDate.parse h (normalizeDate d) =
      option_map (fun t => t + 3 * JsDate.msPerHour)
        (JsDate.parse h (d ++ "Z"))).
Proof.
  intros H.
  assert (normalizeDate d = d ++ "-03:00") as Hn
    by (unfold normalizeDate; rewrite H; reflexivity).
  destruct (naive_parse d H) as (Y & M & D & h & m & s & _ & HZ & H3).
  rewrite Hn. split; [reflexivity|]. split; [|split].
  - eexists. split; [exact H3 | reflexivity].
  - intros h1 h2. unfold JsDate.of_string, JsDate.parse. rewrite H3.
    reflexivity.
  - intros h0. unfold JsDate.parse. rewrite H3, HZ.
    unfold JsDate.time_of_fields, JsDate.legal.
    cbn [JsDate.f_year JsDate.f_month JsDate.f_day JsDate.f_time
           JsDate.f_offset JsDate.f_offset_legal].
    match goal with
    | |- (if ?b then _ else _) = _ => destruct b
    end; [|reflexivity].
    cbn [option_map]. f_equal. unfold JsDate.msPerMinute, JsDate.msPerHour.
    lia.
Qed.

Lemma naive_date_gets_offset_witness :
  normalizeDate "2026-01-10T14:00:00" = "2026-01-10T14:00:00-03:00" /\
  JsDate.of_string sao_paulo_host (normalizeDate "2026-01-10T14:00:00") =
  JsDate.of_string utc_host (normalizeDate "2026-01-10T14:00:00").
Proof.
  destruct (naive_date_gets_offset "2026-01-10T14:00:00" eq_refl)
    as (Hn & _ & Hh & _).
  split; [exact Hn | apply Hh].
Defined.

(** C4, as stated, fails on a bare local date-time that has fractional
    seconds: it carries no designator, the handler leaves it as it is, and the
    parser reads it as the server's local time, which on a UTC server is UTC.
    The conflict check of such a booking then asks for 14:00 UTC where 14:00
    at [-03:00] is 17:00 UTC. *)
Lemma fractional_date_not_normalized :
  bare_local_date_time "2026-01-10T14:00:00.000" = true /\
  normalizeDate "2026-01-10T14:00:00.000" = "2026-01-10T14:00:00.000" /\
  normalizeDate "2026-01-10T14:00:00.000" <>
    "2026-01-10T14:00:00.000" ++ "-03:00" /\
  JsDate.of_string utc_host (normalizeDate "2026-01-10T14:00:00.000") =
    JsDate.of_string utc_host "2026-01-10T14:00:00.000Z" /\
  JsDate.of_string utc_host (normalizeDate "2026-01-10T14:00:00.000") <>
    JsDate.of_string sao_paulo_host (normalizeDate "2026-01-10T14:00:00.000") /\
  JsDate.of_string utc_host (normalizeDate "2026-01-10T14:00:00.000") <>
    JsDate.of_string utc_host "2026-01-10T14:00:00.000-03:00" /\
  trace_of (schedule (fresh_env utc_host)
              {| b_name := Some "Ana"; b_email := Some "ana@x.com";
                 b_date := Some "2026-01-10T14:00:00.000" |}
              (Some (JObj []))) =
    [EventsList
       {| l_calendarId := "primary";
          l_timeMin := "2026-01-10T14:00:00.000Z";
          l_timeMax := "2026-01-10T15:00:00.000Z";
          l_timeZone := "America/Sao_Paulo";
          l_singleEvents := true;
          l_orderBy := None |} (GOk (Some []));
     EventsInsert
       {| i_calendarId := "primary";
          i_resource :=
            bookingEvent (fresh_env utc_host) "Ana" "ana@x.com"
              "2026-01-10T14:00:00.000Z" "2026-01-10T15:00:00.000Z";
          i_conferenceDataVersion := 1;
          i_sendUpdates := "all" |}
       (GOk (Some "https://calendar.example/event"))].
Proof.
  repeat split; try (vm_compute; reflexivity);
    vm_compute; intros H; discriminate H.
Qed.

(** C10.  The normalisation changes nothing unless the string matches the
    pattern exactly: a string that does not match is used as it is, and so is
    in particular every string that is not nineteen characters long, every
    string the parser reads with a designator, every date-only string, and
    every matching string with something appended (fractional seconds, an
    offset); hence normalising twice is normalising once. *)
Theorem normalizeDate_exact_shape :
  (forall d, Regex.test naive_pattern d = false -> normalizeDate d = d) /\
  (forall d, String.length d <> 19%nat -> normalizeDate d = d) /\
  (forall d f o,
      JsDate.parse_iso d = Some f -> JsDate.f_offset f = Some o ->
      normalizeDate d = d) /\
  (forall d f,
      JsDate.parse_iso d = Some f -> JsDate.f_time f = None ->
      normalizeDate d = d) /\
  (forall d sfx,
      Regex.test naive_pattern d = true -> sfx <> "" ->
      normalizeDate (d ++ sfx) = d ++ sfx) /\
  (forall d, normalizeDate (normalizeDate d) = normalizeDate d).
Proof.
  assert (forall d, Regex.test naive_pattern d = false -> normalizeDate d = d)
    as Hid by (intros d H; unfold normalizeDate; rewrite H; reflexivity).
  split; [exact Hid|]. split; [|split; [|split; [|split]]].
  - intros d Hlen. apply Hid.
    destruct (Regex.test naive_pattern d) eqn:E; [|reflexivity].
    apply naive_length in E. contradiction.
  - intros d f o Hp Ho. apply Hid.
    destruct (Regex.test naive_pattern d) eqn:E; [|reflexivity].
    destruct (naive_parse d E) as (Y & M & D & h & m & s & Hd & _).
    rewrite Hd in Hp. inversion Hp; subst. discriminate.
  - intros d f Hp Ht. apply Hid.
    destruct (Regex.test naive_pattern d) eqn:E; [|reflexivity].
    destruct (naive_parse d E) as (Y & M & D & h & m & s & Hd & _).
    rewrite Hd in Hp. inversion Hp; subst. discriminate.
  - intros d sfx H Hs. apply Hid. apply naive_extended; assumption.
  - intros d. unfold normalizeDate at 2 3.
    destruct (Regex.test naive_pattern d) eqn:E.
    + apply Hid. apply naive_extended; [assumption | discriminate].
    + apply Hid. exact E.
Qed.

Lemma normalizeDate_exact_shape_witness :
  normalizeDate "2026-01-10T14:00:00-03:00" = "2026-01-10T14:00:00-03:00" /\
  normalizeDate "2026-01-10T14:00:00.000" = "2026-01-10T14:00:00.000" /\
  normalizeDate "2026-01-10" = "2026-01-10" /\
  normalizeDate "2026-01-10T14:00:00Z" = "2026-01-10T14:00:00Z".
Proof.
  destruct normalizeDate_exact_shape as (Hid & Hlen & Hoff & Hday & Hext & _).
  split; [|split; [|split]].
  - apply (Hext "2026-01-10T14:00:00" "-03:00"); [reflexivity | discriminate].
  - apply Hlen. simpl. discriminate.
  - eapply Hday; vm_compute; reflexivity.
  - eapply Hoff; vm_compute; reflexivity.
Defined.

(** * Further properties of the handlers *)

Lemma gateway_calls_prefix (pre tr : list Effect) :
  Forall (fun e => is_gateway_call e = false) pre ->
  gateway_calls (pre ++ tr) = gateway_calls tr.
Proof.
  intros Hpre. unfold gateway_calls. rewrite filter_app.
  replace (filter is_gateway_call pre) with (@nil Effect); [reflexivity|].
  induction Hpre as [|x pre Hx _ IH]; simpl; [reflexivity|].
  rewrite Hx. exact IH.
Qed.

Lemma gateway_calls_none (pre : list Effect) :
  Forall (fun e => is_gateway_call e = false) pre ->
  gateway_calls pre = [].
Proof.
  intros Hpre. rewrite <- (app_nil_r pre).
  rewrite gateway_calls_prefix by assumption. reflexivity.
Qed.

(** ** The availability handler, beyond the slots *)

(** The availability handler always answers, with 200, 400, 401 or 500; it
    calls the provider at most once, with [events.list] and never with
    [events.insert]; the answer is 400 exactly when the date is missing or
    empty, and 200 exactly when the one [events.list] call succeeded. *)
Theorem availability_answers (env : Env) (query : option string) (c : Creds) :
  exists resp c' tr,
    availability env query c = (Ret resp, c', tr) /\
    In (status resp) [200; 400; 401; 500] /\
    (gateway_calls tr = [] \/ exists p r, gateway_calls tr = [EventsList p r]) /\
    (status resp = 400 <-> truthy_str query = false) /\
    (status resp = 200 <->
     exists p items, gateway_calls tr = [EventsList p (GOk items)]).
Proof.
  destruct (truthy_str query) eqn:Hq.
  2:{ rewrite (availability_missing_date env query c Hq).
      do 3 eexists. split; [reflexivity|]. simpl.
      split; [auto|]. split; [left; reflexivity|].
      split; [tauto|]. split; [discriminate|].
      intros (p & items & H). discriminate. }
  destruct query as [d|]; [|discriminate].
  assert (d <> "") as Hd by (destruct d; [discriminate | congruence]).
  destruct (availability_guarded_run env d c Hd)
    as (c1 & pre & Hpre & [[_ H] | (_ & r & c2 & tr0 & Hcases & Hsame & H)]); rewrite H.
  { do 3 eexists. split; [reflexivity|]. simpl.
    rewrite (gateway_calls_none pre Hpre).
    split; [auto|]. split; [left; reflexivity|].
    split; [split; discriminate|]. split; [discriminate|].
    intros (p & items & H0). discriminate. }
  destruct Hcases as [[-> ->] | (t0 & t1 & p & _ & _ & _ & -> & ->)].
  { do 3 eexists. split; [reflexivity|].
    rewrite (gateway_calls_prefix pre [] Hpre). simpl.
    split; [auto|]. split; [left; reflexivity|].
    split; [split; discriminate|]. split; [discriminate|].
    intros (p & items & H0). discriminate. }
  destruct (events_list env p) as [items|e].
  - do 3 eexists. split; [reflexivity|].
    rewrite (gateway_calls_prefix pre _ Hpre). simpl.
    split; [auto|]. split; [right; eauto|].
    split; [split; discriminate|]. split; [eauto|reflexivity].
  - do 3 eexists. split; [reflexivity|].
    rewrite (gateway_calls_prefix pre _ Hpre). simpl.
    split; [auto|]. split; [right; eauto|].
    split; [split; discriminate|]. split; [discriminate|].
    intros (p0 & items & H0). discriminate.
Qed.

(** A failure of [events.list] in the availability handler is answered with
    500 and the error's message, whatever the error is: unlike the scheduling
    handler, an error with code 401 or an [invalid_grant] message is not
    turned into a 401. *)
Theorem availability_gateway_failure (env : Env) (query : option string)
    (c c' : Creds) (r : Result Response) (tr : list Effect)
    (p : ListParams) (e : JsError) :
  availability env query c = (r, c', tr) ->
  In (EventsList p (GFail e)) tr ->
  r = Ret (fail_with 500 ("Error checking availability: " ++ message e)).
Proof.
  intros Hrun Hin.
  destruct (truthy_str query) eqn:Hq.
  2:{ rewrite (availability_missing_date env query c Hq) in Hrun.
      inversion Hrun; subst. contradiction. }
  destruct query as [d|]; [|discriminate].
  assert (d <> "") as Hd by (destruct d; [discriminate | congruence]).
  destruct (availability_guarded_run env d c Hd)
    as (c1 & pre & Hpre & [[_ H] | (_ & r0 & c2 & tr0 & Hcases & Hsame & H)]);
    rewrite H in Hrun; inversion Hrun; subst; clear Hrun.
  { rewrite Forall_forall in Hpre. apply Hpre in Hin. discriminate. }
  apply in_after_prefix in Hin; [|assumption|reflexivity].
  destruct Hcases as [[-> ->] | (t0 & t1 & p0 & _ & _ & _ & -> & ->)].
  { contradiction. }
  destruct Hin as [Hin | []]. inversion Hin as [[Hp He]]. subst p0.
  first [rewrite He | rewrite <- He]. reflexivity.
Qed.

Lemma availability_gateway_failure_witness :
  result_of
    (availability
       (failing_env {| code := CodeNum 401; message := "invalid_grant" |})
       (Some "2026-01-10") None) =
    Ret (fail_with 500 "Error checking availability: invalid_grant").
Proof.
  apply (availability_gateway_failure
           (failing_env {| code := CodeNum 401; message := "invalid_grant" |})
           (Some "2026-01-10") None
           (creds_of (availability
                        (failing_env {| code := CodeNum 401;
                                        message := "invalid_grant" |})
                        (Some "2026-01-10") None))
           _
           (trace_of (availability
                        (failing_env {| code := CodeNum 401;
                                        message := "invalid_grant" |})
                        (Some "2026-01-10") None))
           {| l_calendarId := "primary";
              l_timeMin := "2026-01-10T00:00:00.000Z";
              l_timeMax := "2026-01-10T23:59:59.999Z";
              l_timeZone := "America/Sao_Paulo";
              l_singleEvents := true;
              l_orderBy := Some "startTime" |}
           {| code := CodeNum 401; message := "invalid_grant" |}).
  - vm_compute. reflexivity.
  - vm_compute. right. left. reflexivity.
Defined.

(** A date that [Date] cannot read never reaches the provider: once the
    credentials are there the availability handler answers 500 with the
    message of the [RangeError] that [toISOString] throws, and 401 when they
    are not. *)
Theorem availability_invalid_date (env : Env) (d : string) (c : Creds) :
  d <> "" ->
  JsDate.of_string (js_host env) d = None ->
  exists c' tr,
    gateway_calls tr = [] /\
    availability env (Some d) c =
      (Ret (if truthy_opt c' then
              fail_with 500 "Error checking availability: Invalid time value"
            else
              fail_with 401 "Backend not authenticated. Please visit /auth"),
       c', tr).
Proof.
  intros Hd Hnone.
  destruct (availability_guarded_run env d c Hd)
    as (c1 & pre & Hpre & [[Hc H] | (Hc & r & c2 & tr0 & Hcases & Hsame & H)]);
    rewrite H; exists c1.
  { exists pre. rewrite Hc. split; [apply gateway_calls_none; exact Hpre|].
    reflexivity. }
  destruct Hcases as [[-> ->] | (t0 & t1 & p & H0 & _)].
  - rewrite (Hsame eq_refl). exists (pre ++ [])%list. rewrite Hc.
    split; [apply gateway_calls_none; rewrite app_nil_r; exact Hpre|].
    reflexivity.
  - rewrite Hnone in H0. discriminate.
Qed.

Lemma availability_invalid_date_witness :
  exists c' tr,
    gateway_calls tr = [] /\
    availability (busy_env utc_host) (Some "tomorrow") None =
      (Ret (if truthy_opt c' then
              fail_with 500 "Error checking availability: Invalid time value"
            else
              fail_with 401 "Backend not authenticated. Please visit /auth"),
       c', tr).
Proof.
  apply (availability_invalid_date (busy_env utc_host) "tomorrow" None).
  - discriminate.
  - reflexivity.
Defined.

Lemma TimeClip_some (x t : Z) : JsDate.TimeClip x = Some t -> t = x.
Proof.
  unfold JsDate.TimeClip.
  destruct (Z.abs x <=? 8640000000000000); congruence.
Qed.

(** On a server whose local time is a fixed offset from UTC, the window the
    availability handler queries is one local day: it starts on a local
    midnight, ends 86399999 ms later and contains the instant the date was
    parsed to. *)
Theorem availability_window_fixed_offset (env : Env) (query : option string)
    (c c' : Creds) (r : Result Response) (tr : list Effect)
    (p : ListParams) (res : GResult (option (list ProviderEvent)))
    (off : Z) :
  fixed_offset (js_host env) off ->
  availability env query c = (r, c', tr) ->
  In (EventsList p res) tr ->
  exists d t t0,
    query = Some d /\
    JsDate.of_string (js_host env) d = Some t /\
    l_timeMin p = JsDate.iso_string t0 /\
    l_timeMax p = JsDate.iso_string (t0 + (JsDate.msPerDay - 1)) /\
    t0 <= t <= t0 + (JsDate.msPerDay - 1) /\
    (t0 + off) mod JsDate.msPerDay = 0.
Proof.
  intros Hoff Hrun Hin.
  destruct (truthy_str query) eqn:Hq.
  2:{ rewrite (availability_missing_date env query c Hq) in Hrun.
      inversion Hrun; subst. contradiction. }
  destruct query as [d|]; [|discriminate].
  assert (d <> "") as Hd by (destruct d; [discriminate | congruence]).
  destruct (availability_guarded_run env d c Hd)
    as (c1 & pre & Hpre & [[_ H] | (_ & r0 & c2 & tr0 & Hcases & Hsame & H)]);
    rewrite H in Hrun; inversion Hrun; subst; clear Hrun.
  { rewrite Forall_forall in Hpre. apply Hpre in Hin. discriminate. }
  apply in_after_prefix in Hin; [|assumption|reflexivity].
  destruct Hcases as [[-> ->] | (t0 & t1 & p0 & H0 & H1 & -> & -> & ->)].
  { contradiction. }
  destruct Hin as [Hin | []]. inversion Hin as [[Hp He]]. clear Hin He.
  destruct (JsDate.of_string (js_host env) d) as [t|] eqn:Ht;
    [|discriminate H0].
  unfold JsDate.setHours, JsDate.LocalTime, JsDate.UTC in H0, H1.
  rewrite !Hoff in H0, H1.
  apply TimeClip_some in H0. apply TimeClip_some in H1.
  unfold JsDate.MakeDate, JsDate.MakeTime, JsDate.Day, JsDate.msPerHour,
    JsDate.msPerMinute, JsDate.msPerSecond in H0, H1.
  subst p. exists d, t, t0. cbn [l_timeMin l_timeMax].
  assert (0 < JsDate.msPerDay) as Hpos by reflexivity.
  assert (JsDate.msPerDay <> 0) as Hnz by discriminate.
  pose proof (Z.div_mod (t + off) JsDate.msPerDay Hnz) as Hdm.
  pose proof (Z.mod_pos_bound (t + off) JsDate.msPerDay Hpos) as Hb.
  assert (t1 = t0 + (JsDate.msPerDay - 1)) as Ht1
    by (unfold JsDate.msPerDay in *; lia).
  split; [reflexivity|]. split; [exact Ht|]. split; [reflexivity|].
  split; [rewrite Ht1; reflexivity|]. split.
  - unfold JsDate.msPerDay in *. lia.
  - replace (t0 + off) with ((t + off) / JsDate.msPerDay * JsDate.msPerDay)
      by lia.
    apply Z.mod_mul. exact Hnz.
Qed.

Lemma availability_window_fixed_offset_witness :
  exists d t t0,
    Some "2025-12-25T12:00:00" = Some d /\
    JsDate.of_string sao_paulo_host d = Some t /\
    "2025-12-25T03:00:00.000Z" = JsDate.iso_string t0 /\
    "2025-12-26T02:59:59.999Z" =
      JsDate.iso_string (t0 + (JsDate.msPerDay - 1)) /\
    t0 <= t <= t0 + (JsDate.msPerDay - 1) /\
    (t0 + - (3 * JsDate.msPerHour)) mod JsDate.msPerDay = 0.
Proof.
  apply (availability_window_fixed_offset (busy_env sao_paulo_host)
           (Some "2025-12-25T12:00:00") (Some (JObj []))
           (Some (JObj []))
           (result_of (availability (busy_env sao_paulo_host)
                         (Some "2025-12-25T12:00:00") (Some (JObj []))))
           (trace_of (availability (busy_env sao_paulo_host)
                        (Some "2025-12-25T12:00:00") (Some (JObj []))))
           {| l_calendarId := "primary";
              l_timeMin := "2025-12-25T03:00:00.000Z";
              l_timeMax := "2025-12-26T02:59:59.999Z";
              l_timeZone := "America/Sao_Paulo";
              l_singleEvents := true;
              l_orderBy := Some "startTime" |}
           (GOk (Some [meeting]))
           (- (3 * JsDate.msPerHour))).
  - intros t b. reflexivity.
  - vm_compute. reflexivity.
  - vm_compute. left. reflexivity.
Defined.

(** ** Credentials across a request *)

Lemma availability_installed (env : Env) (d : string) (c : Creds) :
  d <> "" -> truthy_opt c = true ->
  exists r c2 tr,
    availability env (Some d) c = (Ret r, c2, tr) /\
    Forall (fun e => is_gateway_call e = true) tr /\
    status r <> 401.
Proof.
  intros Hd Hc. unfold availability.
  destruct d as [|a d]; [congruence|]. cbn [Str.is_empty].
  unfold try_catch, bind, get_credentials. rewrite Hc. cbn [negb].
  destruct (availability_query_run env (String a d) c)
    as (r & c2 & tr & Hrun & Hcases & _).
  rewrite Hrun.
  destruct Hcases as [[-> ->] | (t0 & t1 & p & _ & _ & _ & -> & ->)].
  - do 3 eexists. split; [reflexivity|]. split; [constructor | discriminate].
  - destruct (events_list env p); do 3 eexists;
      (split; [reflexivity|]); (split; [repeat constructor | discriminate]).
Qed.

Lemma schedule_error_not_auth_required (e : JsError) :
  schedule_error_response e <> not_authenticated.
Proof.
  unfold schedule_error_response, not_authenticated, fail_with.
  destruct (code_is_401 e || Str.includes "invalid_grant" (message e));
    intros E; inversion E.
Qed.

Lemma schedule_installed (env : Env) (name email date0 : string) (c : Creds) :
  name <> "" -> email <> "" -> date0 <> "" -> truthy_opt c = true ->
  exists r c2 tr,
    schedule env
      {| b_name := Some name; b_email := Some email; b_date := Some date0 |}
      c = (Ret r, c2, tr) /\
    Forall (fun e => is_gateway_call e = true) tr /\
    r <> not_authenticated.
Proof.
  intros Hn He Hd Hc.
  rewrite (schedule_valid env name email date0 c Hn He Hd).
  unfold try_catch, bind, get_credentials. rewrite Hc. cbn [negb].
  destruct (schedule_booking_run env name email (normalizeDate date0) c)
    as (r & c2 & tr & Hrun & Hb).
  rewrite Hrun.
  inversion Hb; subst;
    try (do 3 eexists; split; [reflexivity|];
         split; [repeat constructor|];
         first [apply schedule_error_not_auth_required | discriminate]).
  destruct (events_insert env _); do 3 eexists;
    (split; [reflexivity|]); (split; [repeat constructor|]);
    first [apply schedule_error_not_auth_required | discriminate].
Qed.

(** When credentials are installed, a request does not load them: it neither
    reads the token file nor calls [setCredentials], so every effect is a
    call on the provider, and the answer is never the 401 that asks the
    operator to visit [/auth]. *)
Theorem installed_credentials_not_reloaded (env : Env) (c : Creds) :
  truthy_opt c = true ->
  (forall query,
      Forall (fun e => is_gateway_call e = true)
        (trace_of (availability env query c)) /\
      result_of (availability env query c) <> Ret not_authenticated) /\
  (forall req,
      Forall (fun e => is_gateway_call e = true)
        (trace_of (schedule env req c)) /\
      result_of (schedule env req c) <> Ret not_authenticated).
Proof.
  intros Hc. split.
  - intros query. destruct (truthy_str query) eqn:Hq.
    + destruct query as [d|]; [|discriminate].
      assert (d <> "") as Hd by (destruct d; [discriminate | congruence]).
      destruct (availability_installed env d c Hd Hc)
        as (r & c2 & tr & H & Htr & Hr).
      rewrite H. split; [exact Htr|]. cbn. intros E. inversion E; subst r.
      apply Hr. reflexivity.
    + rewrite (availability_missing_date env query c Hq).
      split; [constructor | discriminate].
  - intros req.
    destruct (schedule_cases env req c)
      as [H | (name & email & date0 & -> & Hn & He & Hd)].
    + rewrite H. split; [constructor | discriminate].
    + destruct (schedule_installed env name email date0 c Hn He Hd Hc)
        as (r & c2 & tr & H & Htr & Hr).
      rewrite H. split; [exact Htr|]. cbn. intros E. inversion E; subst r.
      apply Hr. reflexivity.
Qed.

Lemma installed_credentials_not_reloaded_witness :
  Forall (fun e => is_gateway_call e = true)
    (trace_of (availability file_env (Some "2026-01-10") (Some (JObj [])))) /\
  result_of (schedule file_env ana (Some (JObj []))) <> Ret not_authenticated.
Proof.
  destruct (installed_credentials_not_reloaded file_env (Some (JObj []))
              eq_refl) as [Ha Hs].
  split; [apply Ha | apply Hs].
Defined.

(** A request that finds no credentials loads them and then goes on as the
    same request would with the loaded credentials installed: same answer,
    same provider calls, after the effects of the load. *)
Theorem credentials_loaded_on_demand (env : Env) (c c1 : Creds) (b : bool)
    (pre : list Effect) :
  truthy_opt c = false ->
  loadTokens env c = (Ret b, c1, pre) ->
  truthy_opt c1 = true ->
  (forall query,
      truthy_str query = true ->
      availability env query c =
        (result_of (availability env query c1),
         creds_of (availability env query c1),
         (pre ++ trace_of (availability env query c1))%list)) /\
  (forall req,
      truthy_str (b_name req) = true -> truthy_str (b_email req) = true ->
      truthy_str (b_date req) = true ->
      schedule env req c =
        (result_of (schedule env req c1),
         creds_of (schedule env req c1),
         (pre ++ trace_of (schedule env req c1))%list)).
Proof.
  intros Hc Hload Hc1. split.
  - intros query Hq. destruct query as [d|]; [|discriminate].
    assert (d <> "") as Hd by (destruct d; [discriminate | congruence]).
    unfold availability.
    destruct d as [|a d]; [congruence|]. cbn [Str.is_empty].
    unfold try_catch, bind, get_credentials.
    rewrite Hc, Hc1. cbn [negb]. rewrite Hload, Hc1. cbn [negb].
    destruct (availability_query env (String a d) c1) as [[[r|e] c2] tr];
      cbn; rewrite ?app_nil_r; reflexivity.
  - intros [n e d] Hn He Hd. cbn in Hn, He, Hd.
    destruct n as [name|]; [|discriminate].
    destruct e as [email|]; [|discriminate].
    destruct d as [date0|]; [|discriminate].
    assert (name <> "") as Hn'
        by (destruct name; [discriminate | congruence]).
    assert (email <> "") as He'
        by (destruct email; [discriminate | congruence]).
    assert (date0 <> "") as Hd'
        by (destruct date0; [discriminate | congruence]).
    rewrite !(schedule_valid env name email date0 _ Hn' He' Hd').
    unfold try_catch, bind, get_credentials.
    rewrite Hc, Hc1. cbn [negb]. rewrite Hload, Hc1. cbn [negb].
    destruct (schedule_booking env name email (normalizeDate date0) c1)
      as [[[r|e] c2] tr];
      cbn; rewrite ?app_nil_r; reflexivity.
Qed.

Lemma credentials_loaded_on_demand_witness :
  schedule mixed_env ana None =
    (result_of (schedule mixed_env ana
                  (Some (JObj [("refresh_token", JStr "1//refresh")]))),
     creds_of (schedule mixed_env ana
                 (Some (JObj [("refresh_token", JStr "1//refresh")]))),
     ([SetCredentials (JObj [("refresh_token", JStr "1//refresh")])] ++
      trace_of (schedule mixed_env ana
                  (Some (JObj [("refresh_token", JStr "1//refresh")]))))%list).
Proof.
  destruct (credentials_loaded_on_demand mixed_env None
              (Some (JObj [("refresh_token", JStr "1//refresh")])) true
              [SetCredentials (JObj [("refresh_token", JStr "1//refresh")])]
              eq_refl eq_refl eq_refl) as [_ Hs].
  apply Hs; reflexivity.
Defined.

(** A token file that parses to a falsy value ([null], [0], [false], an empty
    string) makes [loadTokens] report success although no usable credentials
    are installed; the request that triggered the load is still answered with
    401 and reaches the provider with nothing. *)
Theorem falsy_token_file (env : Env) (c : Creds) (v : json) :
  truthy_opt c = false ->
  truthy_str (GOOGLE_REFRESH_TOKEN env) = false ->
  persisted_token env = Some v ->
  truthy v = false ->
  loadTokens env c =
    (Ret true, Some v, [ReadTokenFile (token_file env); SetCredentials v]) /\
  (forall d,
      d <> "" ->
      availability env (Some d) c =
        (Ret (fail_with 401 "Backend not authenticated. Please visit /auth"),
         Some v, [ReadTokenFile (token_file env); SetCredentials v])) /\
  (forall name email date0,
      name <> "" -> email <> "" -> date0 <> "" ->
      schedule env
        {| b_name := Some name; b_email := Some email; b_date := Some date0 |}
        c =
        (Ret (fail_with 401 "Backend not authenticated. Please visit /auth"),
         Some v, [ReadTokenFile (token_file env); SetCredentials v])).
Proof.
  intros Hc Henv Hfile Hv.
  assert (loadTokens env c =
            (Ret true, Some v,
             [ReadTokenFile (token_file env); SetCredentials v])) as Hload.
  { unfold persisted_token in Hfile.
    destruct (token_file env) as [content|] eqn:Hf; [|discriminate].
    apply (loadTokens_from_file env c content v Henv Hf Hfile). }
  split; [exact Hload|]. split.
  - intros d Hd. unfold availability.
    destruct d as [|a d]; [congruence|]. cbn [Str.is_empty].
    unfold try_catch, bind, get_credentials.
    rewrite Hc. cbn [negb]. rewrite Hload. cbn [truthy_opt]. rewrite Hv.
    reflexivity.
  - intros name email date0 Hn He Hd.
    rewrite (schedule_valid env name email date0 c Hn He Hd).
    unfold try_catch, bind, get_credentials.
    rewrite Hc. cbn [negb]. rewrite Hload. cbn [truthy_opt]. rewrite Hv.
    reflexivity.
Qed.

Lemma falsy_token_file_witness :
  loadTokens null_file_env None =
    (Ret true, Some JNull, [ReadTokenFile (Some "null"); SetCredentials JNull])
  /\
  availability null_file_env (Some "2026-01-10") None =
    (Ret (fail_with 401 "Backend not authenticated. Please visit /auth"),
     Some JNull, [ReadTokenFile (Some "null"); SetCredentials JNull]).
Proof.
  destruct (falsy_token_file null_file_env None JNull
              eq_refl eq_refl eq_refl eq_refl) as (Hl & Ha & _).
  split; [exact Hl | apply Ha; discriminate].
Defined.

(** [loadTokens] is idempotent, and a successful load does not depend on what
    was installed before: a second run reads the same sources, installs the
    same credentials and returns the same value. *)
Theorem loadTokens_idempotent (env : Env) (c c1 : Creds) (b : bool)
    (tr : list Effect) :
  loadTokens env c = (Ret b, c1, tr) ->
  loadTokens env c1 = (Ret b, c1, tr) /\
  (b = true -> forall c2, loadTokens env c2 = (Ret b, c1, tr)) /\
  (b = false -> c1 = c).
Proof.
  unfold_run.
  destruct (GOOGLE_REFRESH_TOKEN env) as [[|a s]|]; simpl;
    try (destruct (token_file env) as [content|];
         [destruct (JSON_parse env content)|]);
    intros H; inversion H; subst; repeat split; intros; try reflexivity;
    discriminate.
Qed.

Lemma loadTokens_idempotent_witness :
  loadTokens file_env (Some (JObj [])) =
    (Ret true, Some (JObj []),
     [ReadTokenFile (Some "{}"); SetCredentials (JObj [])]).
Proof.
  destruct (loadTokens_idempotent file_env None (Some (JObj [])) true
              [ReadTokenFile (Some "{}"); SetCredentials (JObj [])] eq_refl)
    as (H & _).
  exact H.
Defined.

(** ** The scheduling handler, beyond the claims *)

Lemma schedule_booking_invalid (env : Env) (name email date : string)
    (c : Creds) :
  JsDate.of_string (js_host env) date = None \/
  (exists t, JsDate.of_string (js_host env) date = Some t /\
             JsDate.TimeClip (t + 60 * JsDate.msPerMinute) = None) ->
  schedule_booking env name email date c =
    (Throw RangeError_invalid_time, c, []).
Proof.
  intros [H | (t & H & Hclip)]; unfold_run; rewrite H;
    cbn [JsDate.plus JsDate.of_number]; [reflexivity|].
  change (60 * 60 * 1000) with (60 * JsDate.msPerMinute).
  rewrite Hclip. reflexivity.
Qed.

(** A booking time that [Date] cannot read, or whose end one hour later
    leaves the range of [Date], never reaches the provider: once the
    credentials are there the handler answers 500 with the message of the
    [RangeError], and 401 when they are not. *)
Theorem schedule_invalid_date (env : Env) (name email date0 : string)
    (c : Creds) :
  name <> "" -> email <> "" -> date0 <> "" ->
  JsDate.of_string (js_host env) (normalizeDate date0) = None \/
  (exists t,
      JsDate.of_string (js_host env) (normalizeDate date0) = Some t /\
      JsDate.TimeClip (t + 60 * JsDate.msPerMinute) = None) ->
  exists c' tr,
    gateway_calls tr = [] /\
    schedule env
      {| b_name := Some name; b_email := Some email; b_date := Some date0 |}
      c =
      (Ret (if truthy_opt c' then
              fail_with 500
                "Error contacting Google Calendar: Invalid time value"
            else
              fail_with 401 "Backend not authenticated. Please visit /auth"),
       c', tr).
Proof.
  intros Hn He Hd Hbad.
  rewrite (schedule_valid env name email date0 c Hn He Hd).
  unfold try_catch, bind, get_credentials.
  destruct (truthy_opt c) eqn:Hc; cbn [negb].
  - rewrite (schedule_booking_invalid env name email _ c Hbad).
    exists c, []. rewrite Hc. split; reflexivity.
  - destruct (loadTokens_no_gateway env c) as (b & c1 & pre & Hload & Hpre).
    rewrite Hload. exists c1.
    destruct (truthy_opt c1) eqn:Hc1; cbn [negb].
    + rewrite (schedule_booking_invalid env name email _ c1 Hbad).
      eexists. split; [|reflexivity].
      apply gateway_calls_none. cbn [app]. rewrite !app_nil_r. exact Hpre.
    + eexists. split; [|reflexivity].
      apply gateway_calls_none. cbn [app]. rewrite !app_nil_r. exact Hpre.
Qed.

Lemma schedule_invalid_date_witness :
  exists c' tr,
    gateway_calls tr = [] /\
    schedule (busy_env utc_host)
      {| b_name := Some "Ana"; b_email := Some "ana@x.com";
         b_date := Some "2026-13-45T25:61:61" |} None =
      (Ret (if truthy_opt c' then
              fail_with 500
                "Error contacting Google Calendar: Invalid time value"
            else
              fail_with 401 "Backend not authenticated. Please visit /auth"),
       c', tr).
Proof.
  apply (schedule_invalid_date (busy_env utc_host) "Ana" "ana@x.com"
           "2026-13-45T25:61:61" None); try discriminate.
  left. vm_compute. reflexivity.
Defined.

(** Either a field is missing or empty and the handler stops at the check,
    or the three fields are non-empty strings. *)
Lemma schedule_split (env : Env) (req : ScheduleBody) (c : Creds) :
  ((truthy_str (b_name req) = false \/ truthy_str (b_email req) = false \/
    truthy_str (b_date req) = false) /\
   schedule env req c =
     (Ret (fail_with 400 "Missing required fields: name, email, date"),
      c, [])) \/
  (exists name email date0,
      req = {| b_name := Some name; b_email := Some email;
               b_date := Some date0 |} /\
      name <> "" /\ email <> "" /\ date0 <> "").
Proof.
  destruct (truthy_str (b_name req)) eqn:E1;
    [|left; split; [auto|]; unfold schedule; rewrite E1; reflexivity].
  destruct (truthy_str (b_email req)) eqn:E2;
    [|left; split; [auto|]; unfold schedule; rewrite E1, E2; reflexivity].
  destruct (truthy_str (b_date req)) eqn:E3;
    [|left; split; [auto|]; unfold schedule; rewrite E1, E2, E3; reflexivity].
  right. destruct req as [[n|] [e|] [d|]]; try discriminate.
  cbn in E1, E2, E3.
  exists n, e, d. split; [reflexivity|].
  destruct n; [discriminate|]. destruct e; [discriminate|].
  destruct d; [discriminate|]. repeat split; discriminate.
Qed.

(** The scheduling handler always answers, with 200, 400, 401, 409 or 500.
    It calls the provider at most twice: one [events.list], and one
    [events.insert] only after a list that returned no event.  The answer is
    400 exactly when a field is missing or empty, 409 exactly when the list
    returned an event, and 200 exactly when the insert succeeded. *)
Theorem schedule_answers (env : Env) (req : ScheduleBody) (c : Creds) :
  exists resp c' tr,
    schedule env req c = (Ret resp, c', tr) /\
    In (status resp) [200; 400; 401; 409; 500] /\
    (gateway_calls tr = [] \/
     (exists p r, gateway_calls tr = [EventsList p r]) \/
     (exists p items ip r,
         (items = None \/ items = Some []) /\
         gateway_calls tr = [EventsList p (GOk items); EventsInsert ip r])) /\
    (status resp = 400 <->
     truthy_str (b_name req) = false \/ truthy_str (b_email req) = false \/
     truthy_str (b_date req) = false) /\
    (status resp = 409 <->
     exists p ev evs, gateway_calls tr = [EventsList p (GOk (Some (ev :: evs)))])
    /\
    (status resp = 200 <->
     exists p items ip link,
       gateway_calls tr =
         [EventsList p (GOk items); EventsInsert ip (GOk link)]).
Proof.
  assert (forall e,
             status (schedule_error_response e) <> 200 /\
             status (schedule_error_response e) <> 400 /\
             status (schedule_error_response e) <> 409 /\
             In (status (schedule_error_response e)) [200; 400; 401; 409; 500])
    as Herr.
  { intros e. destruct (schedule_error_response_status e) as [E|E];
      rewrite E; repeat split; try discriminate; simpl; tauto. }
  destruct (schedule_split env req c)
    as [[Hf H] | (name & email & date0 & -> & Hn & He & Hd)].
  { rewrite H. do 3 eexists. split; [reflexivity|]. simpl.
    split; [auto|]. split; [left; reflexivity|].
    split; [tauto|].
    split; [split; [discriminate | intros (? & ? & ? & H0); discriminate]|].
    split; [discriminate | intros (? & ? & ? & ? & H0); discriminate]. }
  assert (~ (truthy_str (Some name) = false \/ truthy_str (Some email) = false
             \/ truthy_str (Some date0) = false)) as Hvalid.
  { destruct name; [congruence|]. destruct email; [congruence|].
    destruct date0; [congruence|]. cbn. intros [H|[H|H]]; discriminate. }
  cbn [b_name b_email b_date].
  destruct (schedule_guarded_run env name email date0 c Hn He Hd)
    as (c1 & pre & Hpre & [[_ H] | (_ & r & c2 & tr0 & Hb & H)]); rewrite H.
  { do 3 eexists. split; [reflexivity|].
    rewrite (gateway_calls_none pre Hpre). simpl.
    split; [auto|]. split; [left; reflexivity|].
    split; [split; [discriminate | tauto]|].
    split; [split; [discriminate | intros (? & ? & ? & H0); discriminate]|].
    split; [discriminate | intros (? & ? & ? & ? & H0); discriminate]. }
  inversion Hb; subst.
  - do 3 eexists. split; [reflexivity|].
    rewrite (gateway_calls_prefix pre _ Hpre).
    destruct (Herr RangeError_invalid_time) as (E1 & E2 & E3 & E4).
    split; [exact E4|]. split; [left; reflexivity|].
    split; [tauto|].
    split; [split; [tauto | intros (? & ? & ? & H0); discriminate]|].
    split; [tauto | intros (? & ? & ? & ? & H0); discriminate].
  - do 3 eexists. split; [reflexivity|].
    rewrite (gateway_calls_prefix pre _ Hpre).
    destruct (Herr RangeError_invalid_time) as (E1 & E2 & E3 & E4).
    split; [exact E4|]. split; [left; reflexivity|].
    split; [tauto|].
    split; [split; [tauto | intros (? & ? & ? & H0); discriminate]|].
    split; [tauto | intros (? & ? & ? & ? & H0); discriminate].
  - do 3 eexists. split; [reflexivity|].
    rewrite (gateway_calls_prefix pre _ Hpre).
    destruct (Herr e) as (E1 & E2 & E3 & E4).
    split; [exact E4|]. split; [right; left; simpl; eauto|].
    split; [tauto|].
    split; [split; [tauto | intros (? & ? & ? & H0); discriminate]|].
    split; [tauto | intros (? & ? & ? & ? & H0); discriminate].
  - do 3 eexists. split; [reflexivity|].
    rewrite (gateway_calls_prefix pre _ Hpre). simpl.
    split; [auto|]. split; [right; left; eauto|].
    split; [split; [discriminate | tauto]|].
    split; [split; eauto|].
    split; [discriminate | intros (? & ? & ? & ? & H0); discriminate].
  - destruct (events_insert env _) as [link|e] eqn:Hi.
    + do 3 eexists. split; [reflexivity|].
      rewrite (gateway_calls_prefix pre _ Hpre). simpl.
      split; [auto|]. split; [right; right; do 4 eexists; split; eauto|].
      split; [split; [discriminate | tauto]|].
      split; [split; [discriminate
                     | intros (? & ? & ? & H0); discriminate]|].
      split; [intros _; do 4 eexists; reflexivity | reflexivity].
    + do 3 eexists. split; [reflexivity|].
      rewrite (gateway_calls_prefix pre _ Hpre).
      destruct (Herr e) as (E1 & E2 & E3 & E4).
      split; [exact E4|].
      split; [right; right; do 4 eexists; split; [eassumption|reflexivity]|].
      split; [tauto|].
      split; [split; [tauto | intros (? & ? & ? & H0); discriminate]|].
      split; [tauto | intros (? & ? & ? & ? & H0); discriminate].
Qed.

(** A conflict check that comes back without events, an empty list or no
    list at all, is always followed by the insert, and the answer is the
    insert's: success with the link the provider returned, or the answer of
    the [catch] block for the insert's error. *)
Theorem schedule_free_slot (env : Env) (req : ScheduleBody) (c c' : Creds)
    (r : Result Response) (tr : list Effect)
    (p : ListParams) (items : option (list ProviderEvent)) :
  schedule env req c = (r, c', tr) ->
  In (EventsList p (GOk items)) tr ->
  items = None \/ items = Some [] ->
  exists ip res,
    gateway_calls tr = [EventsList p (GOk items); EventsInsert ip res] /\
    i_sendUpdates ip = "all" /\
    r = Ret (match res with
             | GOk link =>
                 ok_with (Scheduled "Evento agendado com sucesso!" link)
             | GFail e => schedule_error_response e
             end).
Proof.
  intros Hrun Hin Hfree.
  destruct (schedule_split env req c)
    as [[_ H] | (name & email & date0 & -> & Hn & He & Hd)].
  { rewrite H in Hrun. inversion Hrun; subst. contradiction. }
  destruct (schedule_guarded_run env name email date0 c Hn He Hd)
    as (c1 & pre & Hpre & [[_ H] | (_ & r0 & c2 & tr0 & Hb & H)]);
    rewrite H in Hrun; inversion Hrun; subst; clear Hrun.
  { rewrite Forall_forall in Hpre. apply Hpre in Hin. discriminate. }
  apply in_after_prefix in Hin; [|assumption|reflexivity].
  rewrite (gateway_calls_prefix pre _ Hpre).
  inversion Hb; subst; simpl in Hin;
    repeat match goal with
           | H : _ \/ _ |- _ => destruct H
           | H : False |- _ => contradiction
           | H : EventsList _ _ = EventsList _ _ |- _ =>
               inversion H; subst; clear H
           | H : EventsInsert _ _ = EventsList _ _ |- _ => discriminate H
           end; try congruence; try discriminate.
  all: do 2 eexists; split; [reflexivity|]; split; [reflexivity|];
    destruct (events_insert env _); reflexivity.
Qed.

Lemma schedule_free_slot_witness :
  exists ip res,
    gateway_calls
      (trace_of (schedule (fresh_env utc_host) ana (Some (JObj [])))) =
      [EventsList
         {| l_calendarId := "primary";
            l_timeMin := "2026-01-10T17:00:00.000Z";
            l_timeMax := "2026-01-10T18:00:00.000Z";
            l_timeZone := "America/Sao_Paulo";
            l_singleEvents := true;
            l_orderBy := None |} (GOk (Some []));
       EventsInsert ip res] /\
    i_sendUpdates ip = "all" /\
    result_of (schedule (fresh_env utc_host) ana (Some (JObj []))) =
      Ret (match res with
           | GOk link =>
               ok_with (Scheduled "Evento agendado com sucesso!" link)
           | GFail e => schedule_error_response e
           end).
Proof.
  apply (schedule_free_slot (fresh_env utc_host) ana (Some (JObj []))
           (creds_of (schedule (fresh_env utc_host) ana (Some (JObj []))))
           (result_of (schedule (fresh_env utc_host) ana (Some (JObj []))))
           (trace_of (schedule (fresh_env utc_host) ana (Some (JObj []))))
           {| l_calendarId := "primary";
              l_timeMin := "2026-01-10T17:00:00.000Z";
              l_timeMax := "2026-01-10T18:00:00.000Z";
              l_timeZone := "America/Sao_Paulo";
              l_singleEvents := true;
              l_orderBy := None |} (Some [])).
  - vm_compute. reflexivity.
  - vm_compute. left. reflexivity.
  - right. reflexivity.
Defined.

Lemma time_of_fields_zone (h1 h2 : JsDate.Host) (f : JsDate.iso_fields)
    (o : Z) :
  JsDate.f_offset f = Some o ->
  JsDate.time_of_fields h1 f = JsDate.time_of_fields h2 f.
Proof.
  intros Ho. unfold JsDate.time_of_fields. rewrite Ho.
  destruct (JsDate.legal f); [|reflexivity].
  destruct (JsDate.f_time f) as [[[[hh mm] ss] ms]|]; reflexivity.
Qed.

Lemma of_string_zone_fixed (d : string) (h1 h2 : JsDate.Host) :
  zone_fixed d ->
  JsDate.of_string h1 (normalizeDate d) =
  JsDate.of_string h2 (normalizeDate d).
Proof.
  intros [Hnaive | (f & o & Hp & Ho)].
  - destruct (naive_parse d Hnaive) as (Y & M & D & h & m & s & _ & _ & H3).
    unfold normalizeDate. rewrite Hnaive.
    unfold JsDate.of_string, JsDate.parse. rewrite H3. reflexivity.
  - assert (Regex.test naive_pattern d = false) as Hno.
    { destruct (Regex.test naive_pattern d) eqn:E; [|reflexivity].
      destruct (naive_parse d E) as (Y & M & D & h & m & s & Hd & _).
      rewrite Hd in Hp. inversion Hp; subst. discriminate. }
    unfold normalizeDate. rewrite Hno.
    unfold JsDate.of_string, JsDate.parse. rewrite Hp.
    rewrite (time_of_fields_zone h1 h2 f o Ho). reflexivity.
Qed.

(** A booking whose time names its zone, by a designator in the string or by
    the offset the handler appends to a bare [YYYY-MM-DDTHH:MM:SS], is handled
    the same on a server in any time zone: same answer, same calls on the
    provider, same credentials. *)
Theorem schedule_zone_independent (env : Env) (h : JsDate.Host)
    (req : ScheduleBody) (d : string) (c : Creds) :
  b_date req = Some d ->
  zone_fixed d ->
  schedule (with_host env h) req c = schedule env req c.
Proof.
  intros Hdate Hz.
  pose proof (of_string_zone_fixed d h (js_host env) Hz) as Heq.
  assert (forall name email c0,
             schedule_booking (with_host env h) name email (normalizeDate d) c0
             = schedule_booking env name email (normalizeDate d) c0) as Hbook.
  { intros name email c0. unfold_run.
    cbn [with_host js_host events_list events_insert].
    rewrite Heq. reflexivity. }
  destruct req as [n e d0]. cbn in Hdate. subst d0.
  unfold schedule. cbn [b_name b_email b_date].
  destruct (negb (truthy_str n) || negb (truthy_str e)
            || negb (truthy_str (Some d))); [reflexivity|].
  destruct n as [name|]; [|reflexivity].
  destruct e as [email|]; [|reflexivity].
  unfold try_catch, bind, get_credentials.
  destruct (truthy_opt c); cbn [negb].
  - rewrite Hbook. reflexivity.
  - change (loadTokens (with_host env h) c) with (loadTokens env c).
    destruct (loadTokens env c) as [[[b|x] c1] pre]; [|reflexivity].
    destruct (truthy_opt c1); cbn [negb]; [|reflexivity].
    rewrite Hbook. reflexivity.
Qed.

Lemma schedule_zone_independent_witness :
  schedule (with_host (fresh_env utc_host) sao_paulo_host) ana None =
  schedule (fresh_env utc_host) ana None.
Proof.
  apply (schedule_zone_independent (fresh_env utc_host) sao_paulo_host ana
           "2026-01-10T14:00:00" None).
  - reflexivity.
  - left. reflexivity.
Defined.

Lemma of_Z_injective (a b : Z) : Str.of_Z a = Str.of_Z b -> a = b.
Proof.
  unfold Str.of_Z. intros H.
  assert (forall z, Z.to_int z <> Decimal.Pos Decimal.Nil /\
                    Z.to_int z <> Decimal.Neg Decimal.Nil) as Hnn.
  { intros [|q|q]; simpl; split; try discriminate.
    - intros E. inversion E as [E']. revert E'.
      apply DecimalPos.Unsigned.to_uint_nonnil.
    - intros E. inversion E as [E']. revert E'.
      apply DecimalPos.Unsigned.to_uint_nonnil. }
  apply (f_equal NilZero.int_of_string) in H.
  destruct (Hnn a) as [Ha1 Ha2]. destruct (Hnn b) as [Hb1 Hb2].
  rewrite !NilZero.isi in H by assumption.
  inversion H as [H'].
  apply DecimalZ.to_int_inj. exact H'.
Qed.

(** The identifier of the conference request is the clock reading at the
    booking: two bookings carry the same identifier exactly when they are
    built in the same millisecond, whoever they are for. *)
Theorem requestId_by_clock (env1 env2 : Env)
    (name1 email1 s1 e1 name2 email2 s2 e2 : string) :
  requestId (createRequest (conferenceData
               (bookingEvent env1 name1 email1 s1 e1))) =
  requestId (createRequest (conferenceData
               (bookingEvent env2 name2 email2 s2 e2))) <->
  Date_now env1 = Date_now env2.
Proof.
  cbn [bookingEvent conferenceData createRequest requestId]. split.
  - intros H. cbn [String.append] in H.
    inversion H as [H']. apply of_Z_injective. exact H'.
  - intros ->. reflexivity.
Qed.

(** ** The authorisation callback and the token file *)

(** [saveTokens] makes one attempt to write the token set to the file and
    returns normally whether the write succeeds or fails; it leaves the
    installed credentials alone. *)
Theorem saveTokens_never_throws (aenv : AuthEnv) (tokens : Credentials)
    (c : Creds) :
  saveTokens aenv tokens c =
    (Ret tt, c,
     [WriteTokenFile (JSON_stringify aenv (json_of_credentials tokens))
        (writeFile aenv (JSON_stringify aenv (json_of_credentials tokens)))]).
Proof.
  unfold saveTokens, try_catchA, bindA, writeFileA, retA.
  destruct (writeFile aenv (JSON_stringify aenv (json_of_credentials tokens)));
    reflexivity.
Qed.

(** When the code is exchanged for tokens, the callback installs them in
    place of whatever was installed, tries once to save them and answers 200
    with the success page, also when the file cannot be written. *)
Theorem auth_callback_granted (aenv : AuthEnv) (code : option string)
    (tokens : Credentials) (c : Creds) :
  getToken aenv code = GOk tokens ->
  auth_callback aenv code c =
    (Ret {| h_status := 200; h_body := success_page tokens |},
     Some (json_of_credentials tokens),
     [GetToken code (GOk tokens);
      Core (SetCredentials (json_of_credentials tokens));
      WriteTokenFile (JSON_stringify aenv (json_of_credentials tokens))
        (writeFile aenv (JSON_stringify aenv (json_of_credentials tokens)))]).
Proof.
  intros Hget.
  unfold auth_callback, saveTokens, try_catchA, bindA, getTokenA, writeFileA,
    liftA, setCredentials, retA.
  rewrite Hget. cbn [map].
  destruct (writeFile aenv (JSON_stringify aenv (json_of_credentials tokens)));
    reflexivity.
Qed.

Lemma auth_callback_granted_witness :
  auth_callback readonly_auth_env (Some "4/0AX4") None =
    (Ret {| h_status := 200; h_body := success_page granted |},
     Some (json_of_credentials granted),
     [GetToken (Some "4/0AX4") (GOk granted);
      Core (SetCredentials (json_of_credentials granted));
      WriteTokenFile "{}"
        (Some {| code := CodeStr "EROFS";
                 message := "EROFS: read-only file system" |})]).
Proof.
  apply (auth_callback_granted readonly_auth_env (Some "4/0AX4") granted None).
  reflexivity.
Defined.

(** When the exchange fails, the callback answers 500 with the failure page
    for that error; the installed credentials stay as they were and nothing
    is written to the token file. *)
Theorem auth_callback_denied (aenv : AuthEnv) (code : option string)
    (e : JsError) (c : Creds) :
  getToken aenv code = GFail e ->
  auth_callback aenv code c =
    (Ret {| h_status := 500; h_body := failure_page aenv e |}, c,
     [GetToken code (GFail e)]).
Proof.
  intros Hget.
  unfold auth_callback, try_catchA, bindA, getTokenA, retA.
  rewrite Hget. reflexivity.
Qed.

Lemma auth_callback_denied_witness :
  auth_callback denied_auth_env None (Some (JObj [])) =
    (Ret {| h_status := 500;
            h_body := failure_page denied_auth_env
                        {| code := CodeNum 400; message := "invalid_grant" |} |},
     Some (JObj []),
     [GetToken None
        (GFail {| code := CodeNum 400; message := "invalid_grant" |})]).
Proof.
  apply (auth_callback_denied denied_auth_env None
           {| code := CodeNum 400; message := "invalid_grant" |}
           (Some (JObj []))).
  reflexivity.
Defined.

(** The tokens the callback saves are the ones a later [loadTokens] installs:
    when the write succeeds, the environment holds no refresh token and
    [JSON.parse] reads back what [JSON.stringify] wrote, loading from the
    written file installs exactly the credentials the callback installed. *)
Theorem saved_tokens_reload (aenv : AuthEnv) (env : Env)
    (code : option string) (tokens : Credentials) (c c0 : Creds) :
  getToken aenv code = GOk tokens ->
  writeFile aenv (JSON_stringify aenv (json_of_credentials tokens)) = None ->
  truthy_str (GOOGLE_REFRESH_TOKEN env) = false ->
  JSON_parse env (JSON_stringify aenv (json_of_credentials tokens)) =
    Some (json_of_credentials tokens) ->
  exists resp content,
    auth_callback aenv code c =
      (Ret resp, Some (json_of_credentials tokens),
       [GetToken code (GOk tokens);
        Core (SetCredentials (json_of_credentials tokens));
        WriteTokenFile content None]) /\
    loadTokens (with_token_file env content) c0 =
      (Ret true, Some (json_of_credentials tokens),
       [ReadTokenFile (Some content);
        SetCredentials (json_of_credentials tokens)]).
Proof.
  intros Hget Hwrite Henv Hparse.
  exists {| h_status := 200; h_body := success_page tokens |},
    (JSON_stringify aenv (json_of_credentials tokens)).
  split.
  - unfold auth_callback, saveTokens, try_catchA, bindA, getTokenA,
      writeFileA, liftA, setCredentials, retA.
    rewrite Hget. cbn [map]. rewrite Hwrite. reflexivity.
  - apply loadTokens_from_file; [exact Henv | reflexivity | exact Hparse].
Qed.

Lemma saved_tokens_reload_witness :
  exists resp content,
    auth_callback local_auth_env (Some "4/0AX4") None =
      (Ret resp, Some (json_of_credentials granted),
       [GetToken (Some "4/0AX4") (GOk granted);
        Core (SetCredentials (json_of_credentials granted));
        WriteTokenFile content None]) /\
    loadTokens (with_token_file granted_file_env content) None =
      (Ret true, Some (json_of_credentials granted),
       [ReadTokenFile (Some content);
        SetCredentials (json_of_credentials granted)]).
Proof.
  apply (saved_tokens_reload local_auth_env granted_file_env (Some "4/0AX4")
           granted None None); reflexivity.
Defined.

(** The success page shows the refresh token to the operator whenever the
    exchange returned a non-empty one, and otherwise is the fixed page that
    says none was returned. *)
Theorem success_page_refresh_token (tokens : Credentials) :
  (forall tok,
      refresh_token tokens = Some tok -> tok <> "" ->
      Str.includes tok (success_page tokens) = true) /\
  (truthy_str (refresh_token tokens) = false ->
   success_page tokens =
     nl ++ "            <h1>Authentication successful!</h1>" ++
     nl ++ "            <p>You can close this window. Backend is ready to schedule events.</p>" ++
     nl ++ "            " ++
     "<p>No refresh token returned. (Did you already authorize?)</p>" ++
     nl ++ "        ").
Proof.
  split.
  - intros tok Htok Hne. unfold success_page, refreshTokenMsg.
    rewrite Htok. destruct tok as [|x tok]; [congruence|].
    cbn [Str.is_empty negb].
    do 6 apply includes_left. apply includes_right.
    apply includes_left. apply includes_right. apply includes_self.
  - intros Hf. unfold success_page, refreshTokenMsg.
    destruct (refresh_token tokens) as [[|x tok]|]; try discriminate;
      reflexivity.
Qed.

Lemma success_page_refresh_token_witness :
  Str.includes "1//refresh" (success_page granted) = true.
Proof.
  apply (proj1 (success_page_refresh_token granted) "1//refresh");
    [reflexivity | discriminate].
Defined.

(** ** Two more facts on bookings *)

(** The hour that is booked is the hour that was checked: whenever the
    handler calls [events.insert], it has called [events.list] before, that
    call succeeded, and the event's start and end are the bounds of the
    window it asked about. *)
Theorem schedule_books_checked_hour (env : Env) (req : ScheduleBody)
    (c c' : Creds) (r : Result Response) (tr : list Effect)
    (ip : InsertParams) (res : GResult (option string)) :
  schedule env req c = (r, c', tr) ->
  In (EventsInsert ip res) tr ->
  exists p items,
    gateway_calls tr = [EventsList p (GOk items); EventsInsert ip res] /\
    e_dateTime (start (i_resource ip)) = l_timeMin p /\
    e_dateTime (end_ (i_resource ip)) = l_timeMax p /\
    e_timeZone (start (i_resource ip)) = l_timeZone p /\
    e_timeZone (end_ (i_resource ip)) = l_timeZone p.
Proof.
  intros Hrun Hin.
  destruct (schedule_split env req c)
    as [[_ H] | (name & email & date0 & -> & Hn & He & Hd)].
  { rewrite H in Hrun. inversion Hrun; subst. contradiction. }
  destruct (schedule_guarded_run env name email date0 c Hn He Hd)
    as (c1 & pre & Hpre & [[_ H] | (_ & r0 & c2 & tr0 & Hb & H)]);
    rewrite H in Hrun; inversion Hrun; subst; clear Hrun.
  { rewrite Forall_forall in Hpre. apply Hpre in Hin. discriminate. }
  apply in_after_prefix in Hin; [|assumption|reflexivity].
  rewrite (gateway_calls_prefix pre _ Hpre).
  inversion Hb; subst; simpl in Hin;
    repeat match goal with
           | H : _ \/ _ |- _ => destruct H
           | H : False |- _ => contradiction
           | H : EventsInsert _ _ = EventsInsert _ _ |- _ =>
               inversion H; subst; clear H
           | H : EventsList _ _ = EventsInsert _ _ |- _ => discriminate H
           end; try congruence; try discriminate.
  all: do 2 eexists; repeat split; reflexivity.
Qed.

Lemma schedule_books_checked_hour_witness :
  exists p items,
    gateway_calls
      (trace_of (schedule (fresh_env utc_host) ana (Some (JObj [])))) =
      [EventsList p (GOk items);
       EventsInsert
         {| i_calendarId := "primary";
            i_resource :=
              bookingEvent (fresh_env utc_host) "Ana" "ana@x.com"
                "2026-01-10T17:00:00.000Z" "2026-01-10T18:00:00.000Z";
            i_conferenceDataVersion := 1;
            i_sendUpdates := "all" |}
         (GOk (Some "https://calendar.example/event"))] /\
    "2026-01-10T17:00:00.000Z" = l_timeMin p /\
    "2026-01-10T18:00:00.000Z" = l_timeMax p.
Proof.
  destruct (schedule_books_checked_hour (fresh_env utc_host) ana
              (Some (JObj []))
              (creds_of (schedule (fresh_env utc_host) ana (Some (JObj []))))
              (result_of (schedule (fresh_env utc_host) ana (Some (JObj []))))
              (trace_of (schedule (fresh_env utc_host) ana (Some (JObj []))))
              {| i_calendarId := "primary";
                 i_resource :=
                   bookingEvent (fresh_env utc_host) "Ana" "ana@x.com"
                     "2026-01-10T17:00:00.000Z" "2026-01-10T18:00:00.000Z";
                 i_conferenceDataVersion := 1;
                 i_sendUpdates := "all" |}
              (GOk (Some "https://calendar.example/event")))
    as (p & items & Hg & Hs & He & _).
  - vm_compute. reflexivity.
  - vm_compute. right. left. reflexivity.
  - exists p, items. split; [exact Hg|]. split; [exact Hs | exact He].
Defined.

Lemma append_not_fixpoint (d : string) : d <> d ++ "-03:00".
Proof.
  intros H. apply (f_equal String.length) in H.
  rewrite append_length in H. simpl in H. lia.
Qed.

(** The handler appends the offset to exactly the strings of nineteen
    characters made of four digits, [-], two digits, [-], two digits, [T] and
    three pairs of digits separated by [:]; that the digits name a real date
    and time is not looked at. *)
Theorem normalizeDate_appends_iff (d : string) :
  normalizeDate d = d ++ "-03:00" <->
  exists y1 y2 y3 y4 m1 m2 d1 d2 h1 h2 n1 n2 s1 s2,
    d = String y1 (String y2 (String y3 (String y4 (String "-"
        (String m1 (String m2 (String "-"
        (String d1 (String d2 (String "T"
        (String h1 (String h2 (String ":"
        (String n1 (String n2 (String ":"
        (String s1 (String s2 "")))))))))))))))))) /\
    Forall (fun c => Str.is_digit c = true)
      [y1; y2; y3; y4; m1; m2; d1; d2; h1; h2; n1; n2; s1; s2].
Proof.
  split.
  - intros H. apply naive_shape.
    destruct (Regex.test naive_pattern d) eqn:E; [reflexivity|].
    unfold normalizeDate in H. rewrite E in H.
    exfalso. exact (append_not_fixpoint d H).
  - intros (y1 & y2 & y3 & y4 & m1 & m2 & d1 & d2 & h1 & h2 & n1 & n2 &
            s1 & s2 & -> & Hd).
    repeat match goal with
           | H : Forall _ (_ :: _) |- _ => inversion H; subst; clear H
           | H : Forall _ [] |- _ => clear H
           end.
    unfold normalizeDate, naive_pattern.
    cbn [Regex.test Regex.eat_digits Str.is_empty].
    repeat match goal with
           | H : Str.is_digit ?c = true |- _ =>
               rewrite !H; clear H;
               cbn [Regex.test Regex.eat_digits Str.is_empty]
           end.
    reflexivity.
Qed.
